(** * The mint saga of DPAL: a shallow embedding of [src/services/mintService.ts]

    The service has two entry points: [executeMintFlow], which charges a
    credit wallet, asks a generative provider for an image and records the
    minted asset, and [serveAssetImage], which reads the image back.

    The MongoDB collections are lists of documents in insertion order
    ([findOne], [updateOne] and [findOneAndUpdate] act on the first document
    that matches the filter).  A transaction is a working copy of the
    database next to the committed one.  JavaScript exceptions are a
    completion value threaded through a state monad, and everything the
    function reads from outside (the provider, the clock, the random number
    generator, the driver's fresh object ids) is a field of [World]. *)

From Stdlib Require Import ZArith NArith String Ascii List Bool Lia DecimalString.
From Stdlib Require Import DecimalPos DecimalZ.
From Stdlib Require Import Floats.SpecFloat.
Import ListNotations.
Local Open Scope string_scope.
Local Open Scope Z_scope.

(** ** JavaScript values *)

(** A thrown error: the constructor's name and the [message]. *)
Record JsError := mkError { name : string; message : string }.

(** [new Error(msg)]. *)
Definition Error (msg : string) : JsError := mkError "Error" msg.

(** What the runtime throws on a property read of [undefined], or when the
    operand of [for ... of] is not iterable. *)
Definition TypeError (msg : string) : JsError := mkError "TypeError" msg.

(** The driver's error on a unique index violation. *)
Definition DuplicateKey (index : string) : JsError :=
  mkError "MongoServerError" ("E11000 duplicate key error index: " ++ index).

(** Mongoose's error when a [required] path is empty. *)
Definition ValidationError (path : string) : JsError :=
  mkError "ValidationError" ("Path `" ++ path ++ "` is required.").

(** Mongoose's error when the value of a path cannot be cast to its type. *)
Definition CastError (kind path : string) : JsError :=
  mkError "ValidationError" ("Cast to " ++ kind ++ " failed at path `" ++ path ++ "`").

Definition JsError_eqb (a b : JsError) : bool :=
  String.eqb (name a) (name b) && String.eqb (message a) (message b).

(** A template literal prints a number in decimal. *)
Definition Z_to_string (z : Z) : string := NilZero.string_of_int (Z.to_int z).

Definition ObjectId := N.
Definition Buffer := list Byte.byte.

(** ** Numbers

    The numbers of the service are IEEE doubles, and [priceCredits] comes
    unchecked.  The model holds the integer-valued, finite ones, as [Z]:
    comparisons are exact on them, and a sum is the double nearest to the
    exact sum (ties to even), which [binary_normalize] of the standard
    library's specification of binary64 computes.  Amounts with a
    fraction, NaN and the infinities are outside the model; for a sum
    beyond the largest double, where the service has Infinity, [double]
    leaves the integer as it is. *)

(** 2^53: up to it every integer is a double. *)
Definition limit : Z := 9007199254740992.

Definition safe (z : Z) : Prop := Z.abs z <= limit.

(** 2^52: the sum of two integers within it is within 2^53. *)
Definition half : Z := 4503599627370496.

(** The double nearest to a positive integer. *)
Definition nearest (a : Z) : Z :=
  match binary_normalize 53 1024 a 0 false with
  | S754_finite _ m e => Z.shiftl (Zpos m) e
  | _ => a
  end.

Definition double (z : Z) : Z :=
  if Z.abs z <=? limit then z else Z.sgn z * nearest (Z.abs z).

(** [$inc]: the sum of two doubles. *)
Definition inc (x by_ : Z) : Z := double (x + by_).

(** ** Documents *)

Module Wallet.
(** [CreditWallet]: the fields the service reads and writes. *)
Record t := mk {
  userId : string;
  balance : Z;
  lockedBalance : Z;
  updatedAt : Z
}.
End Wallet.

Module Ledger.
(** [referenceId] is the draft id on the lock entry and the request's
    [_id] on the spend entry. *)
Inductive reference :=
| Draft (assetDraftId : string)
| Request (_id : ObjectId).

Record t := mk {
  _id : ObjectId;
  userId : string;
  type : string;
  amount : Z;
  direction : string;
  referenceId : reference;
  idempotencyKey : string
}.
End Ledger.

Record Attribute := { trait_type : string; value : string }.
Record Meta := { concept : string; theme : string }.

(** The [payload] argument.  [meta] and [attributes] may be missing. *)
Record Payload := {
  idempotencyKey : string;
  meta : option Meta;
  assetDraftId : string;
  collectionId : string;
  chain : string;
  priceCredits : Z;
  attributes : option (list Attribute)
}.

Module Request.
Inductive Status := PROCESSING | COMPLETED | FAILED.

(** [{ ...payload, userId, status }], and the [error] the failure
    annotation sets. *)
Record t := mk {
  _id : ObjectId;
  payload : Payload;
  userId : string;
  status : Status;
  error : option string
}.
End Request.

Module Asset.
Inductive Status := DRAFT | MINTED | BURNED.

(** [INftAsset]; [imageData] is optional. *)
Record t := mk {
  _id : ObjectId;
  tokenId : string;
  collectionId : string;
  chain : string;
  metadataUri : string;
  imageUri : string;
  attributes : list Attribute;
  createdByUserId : string;
  status : Status;
  imageData : option Buffer
}.
End Asset.

Module Receipt.
(** The receipt.  The gate of [executeMintFlow] filters on
    [idempotencyKey], so the document has that path; a document created
    without it holds [None]. *)
Record t := mk {
  _id : ObjectId;
  mintRequestId : ObjectId;
  userId : string;
  idempotencyKey : option string;
  tokenId : string;
  txHash : string;
  chain : string;
  metadataUri : string;
  imageUri : string;
  priceCredits : Z;
  ledgerEntryId : ObjectId
}.
End Receipt.

Module Audit.
Record t := mk {
  _id : ObjectId;
  actorUserId : string;
  action : string;
  entityType : string;
  entityId : ObjectId;
  hash : string;
  meta_priceCredits : Z;
  meta_tokenId : string
}.
End Audit.

(** ** The database *)

Record DB := mkDB {
  wallets : list Wallet.t;
  ledger : list Ledger.t;
  requests : list Request.t;
  assets : list Asset.t;
  receipts : list Receipt.t;
  audits : list Audit.t
}.

Definition set_wallets (v : list Wallet.t) (d : DB) : DB :=
  mkDB v (ledger d) (requests d) (assets d) (receipts d) (audits d).
Definition set_ledger (v : list Ledger.t) (d : DB) : DB :=
  mkDB (wallets d) v (requests d) (assets d) (receipts d) (audits d).
Definition set_requests (v : list Request.t) (d : DB) : DB :=
  mkDB (wallets d) (ledger d) v (assets d) (receipts d) (audits d).
Definition set_assets (v : list Asset.t) (d : DB) : DB :=
  mkDB (wallets d) (ledger d) (requests d) v (receipts d) (audits d).
Definition set_receipts (v : list Receipt.t) (d : DB) : DB :=
  mkDB (wallets d) (ledger d) (requests d) (assets d) v (audits d).
Definition set_audits (v : list Audit.t) (d : DB) : DB :=
  mkDB (wallets d) (ledger d) (requests d) (assets d) (receipts d) v.

(** The committed database, and the working copy of the open transaction. *)
Record Store := mkStore {
  committed : DB;
  transaction : option DB
}.

Definition atRest (d : DB) : Store := mkStore d None.


(** ** The generative provider *)

Record InlineData := { data : option string }.
Record Part := { text : option string; inlineData : option InlineData }.
Record Content := { parts : option (list Part) }.
Record Candidate := { content : option Content }.
Record GenerateContentResponse := { candidates : option (list Candidate) }.

Record GenerateContentParameters := {
  model : string;
  contents : list string;
  aspectRatio : string
}.

(** How the promise of [ai.models.generateContent] settles. *)
Inductive Settled :=
| Resolved (response : GenerateContentResponse)
| Rejected (reason : JsError).

(** ** What the service reads from outside *)

Record World := {
  generateContent : GenerateContentParameters -> Settled;
  (** [new Date()] of the lock and [Date.now()] of the token, in ms *)
  new_Date : Z;
  Date_now : Z;
  (** [Math.floor(Math.random() * 1000)], an integer of [0, 1000) *)
  Math_random_1000 : Z;
  (** [Math.random().toString(16).slice(2)] *)
  Math_random_hex : string;
  (** the [_id] the driver gives each created document *)
  lockLedger_id : ObjectId;
  request_id : ObjectId;
  asset_id : ObjectId;
  spendLedger_id : ObjectId;
  receipt_id : ObjectId;
  audit_id : ObjectId;
  (** a failure of the write that annotates the request, if it has one *)
  annotation_failure : option JsError
}.

(** Modelled from the spec: the schemas of CreditLedger, MintRequest and
    MintReceipt are missing; section 6 of the spec lists
    [LedgerEntry{idempotencyKey unique}], [MintRequest{(userId,
    idempotencyKey) unique}] and [MintReceipt{(userId, idempotencyKey)
    unique}] as the logical layout.  Whether a collection carries its
    index is a parameter, so the results below hold with and without. *)
Record UniqueKeys := {
  ledger_key_index : bool;
  request_pair_index : bool;
  receipt_pair_index : bool
}.

(** What the service imports: [Buffer_from_base64 s] is
    [Buffer.from(s, 'base64')] of the [buffer] module; [ObjectId_accepts s]
    tells whether [new ObjectId(s)] of the driver takes the string (24
    hexadecimal digits, and in older versions any 12 bytes) or throws;
    [uniqueKeys] are the indexes of the models whose schemas are not
    among the sources. *)
Class Platform := {
  Buffer_from_base64 : string -> Buffer;
  ObjectId_accepts : string -> bool;
  uniqueKeys : UniqueKeys
}.

(** ** Asynchronous computations over the store *)

Inductive Completion (A : Type) :=
| Normal (a : A)
| Throw (e : JsError).
Arguments Normal {A} a.
Arguments Throw {A} e.

Definition Async (A : Type) := Store -> Completion A * Store.

Definition ret {A} (a : A) : Async A := fun st => (Normal a, st).
Definition throw {A} (e : JsError) : Async A := fun st => (Throw e, st).

(** A computation that does not touch the store. *)
Definition complete {A} (c : Completion A) : Async A := fun st => (c, st).

Definition bind {A B} (c : Async A) (k : A -> Async B) : Async B :=
  fun st =>
    match c st with
    | (Normal a, st') => k a st'
    | (Throw e, st') => (Throw e, st')
    end.

Notation "x <- c ;; k" := (bind c (fun x => k))
  (at level 61, c at next level, right associativity).
Notation "c ;;; k" := (bind c (fun _ => k))
  (at level 61, right associativity).

(** [try { body } catch (error) { handler } finally { final }], for a
    [final] block that neither throws nor returns. *)
Definition tryCatchFinally {A} (body : Async A) (handler : JsError -> Async A)
    (final : Async unit) : Async A :=
  fun st =>
    let (c, st1) :=
      match body st with
      | (Normal a, st') => (Normal a, st')
      | (Throw error, st') => handler error st'
      end in
    (c, snd (final st1)).

(** [try { body } catch (e) { }]. *)
Definition tryIgnore (body : Async unit) : Async unit :=
  fun st =>
    match body st with
    | (Normal _, st') => (Normal tt, st')
    | (Throw _, st') => (Normal tt, st')
    end.

(** ** Sessions *)

(** The [{ session }] option of a model operation. *)
Inductive Options := noSession | withSession.

(** The database an operation sees, and where its write goes: the working
    copy when it runs in a session with an open transaction, the committed
    database otherwise. *)
Definition view (o : Options) (st : Store) : DB :=
  match o, transaction st with
  | withSession, Some t => t
  | _, _ => committed st
  end.

Definition write (o : Options) (d : DB) (st : Store) : Store :=
  match o, transaction st with
  | withSession, Some _ => mkStore (committed st) (Some d)
  | _, _ => mkStore d (transaction st)
  end.

Definition startTransaction : Async unit :=
  fun st => (Normal tt, mkStore (committed st) (Some (committed st))).

Definition commitTransaction : Async unit :=
  fun st =>
    match transaction st with
    | Some t => (Normal tt, mkStore t None)
    | None => (Throw (mkError "MongoTransactionError" "No transaction started"), st)
    end.

Definition abortTransaction : Async unit :=
  fun st => (Normal tt, mkStore (committed st) None).

Definition endSession : Async unit :=
  fun st => (Normal tt, mkStore (committed st) None).

(** ** Collections *)

(** [updateOne]: the first document that matches is updated. *)
Fixpoint updateFirst {T} (filter : T -> bool) (update : T -> T) (docs : list T) : list T :=
  match docs with
  | [] => []
  | d :: rest =>
      if filter d then update d :: rest
      else d :: updateFirst filter update rest
  end.

(** The first unique index that [doc] would violate. *)
Fixpoint violated {T} (indexes : list (string * (T -> T -> bool))) (doc : T)
    (docs : list T) : option string :=
  match indexes with
  | [] => None
  | (index, same) :: more =>
      if existsb (same doc) docs then Some index else violated more doc docs
  end.

(** [create]: the document goes last unless a unique index refuses it. *)
Definition insertOne {T} (indexes : list (string * (T -> T -> bool))) (doc : T)
    (docs : list T) : Completion (list T) :=
  match violated indexes doc docs with
  | Some index => Throw (DuplicateKey index)
  | None => Normal (docs ++ [doc])%list
  end.

Definition option_eqb {T} (eqb : T -> T -> bool) (a b : option T) : bool :=
  match a, b with
  | Some x, Some y => eqb x y
  | None, None => true
  | _, _ => false
  end.

(** ** The models

    Each operation takes the filter as a predicate on documents and the
    update as a function on them.  Every collection has the unique index on
    [_id] that MongoDB always builds. *)

Module CreditWallet.
(** [findOneAndUpdate(filter, update, { session, new: true })]: resolves to
    the updated document, or to [null] when nothing matches. *)
Definition findOneAndUpdate (filter : Wallet.t -> bool) (update : Wallet.t -> Wallet.t)
    (o : Options) : Async (option Wallet.t) :=
  fun st =>
    let d := view o st in
    (Normal (option_map update (find filter (wallets d))),
     write o (set_wallets (updateFirst filter update (wallets d)) d) st).

Definition updateOne (filter : Wallet.t -> bool) (update : Wallet.t -> Wallet.t)
    (o : Options) : Async unit :=
  fun st =>
    let d := view o st in
    (Normal tt, write o (set_wallets (updateFirst filter update (wallets d)) d) st).
End CreditWallet.

Module CreditLedger.
Definition indexes `{Platform} : list (string * (Ledger.t -> Ledger.t -> bool)) :=
  ("_id_", fun a b => N.eqb (Ledger._id a) (Ledger._id b))
  :: (if ledger_key_index uniqueKeys
      then [("idempotencyKey_1",
             fun a b => String.eqb (Ledger.idempotencyKey a) (Ledger.idempotencyKey b))]
      else []).

Definition create `{Platform} (doc : Ledger.t) (o : Options) : Async Ledger.t :=
  fun st =>
    let d := view o st in
    match insertOne indexes doc (ledger d) with
    | Throw e => (Throw e, st)
    | Normal docs => (Normal doc, write o (set_ledger docs d) st)
    end.
End CreditLedger.

Module MintRequest.
Definition indexes `{Platform} : list (string * (Request.t -> Request.t -> bool)) :=
  ("_id_", fun a b => N.eqb (Request._id a) (Request._id b))
  :: (if request_pair_index uniqueKeys
      then [("userId_1_idempotencyKey_1",
             fun a b =>
               String.eqb (Request.userId a) (Request.userId b)
               && String.eqb (idempotencyKey (Request.payload a))
                             (idempotencyKey (Request.payload b)))]
      else []).

Definition create `{Platform} (doc : Request.t) (o : Options) : Async Request.t :=
  fun st =>
    let d := view o st in
    match insertOne indexes doc (requests d) with
    | Throw e => (Throw e, st)
    | Normal docs => (Normal doc, write o (set_requests docs d) st)
    end.

Definition updateOne (filter : Request.t -> bool) (update : Request.t -> Request.t)
    (o : Options) : Async unit :=
  fun st =>
    let d := view o st in
    (Normal tt, write o (set_requests (updateFirst filter update (requests d)) d) st).
End MintRequest.

Module NftAsset.
(** [NftAssetSchema]: [tokenId] is [unique]. *)
Definition indexes : list (string * (Asset.t -> Asset.t -> bool)) :=
  [("_id_", fun a b => N.eqb (Asset._id a) (Asset._id b));
   ("tokenId_1", fun a b => String.eqb (Asset.tokenId a) (Asset.tokenId b))].

(** [NftAssetSchema]: the [required] paths; a required string must not be
    empty.  [createdByUserId] is an ObjectId path: the document keeps the
    user id as the service has it, a string, and [validate] casts it. *)
Definition required (doc : Asset.t) : list (string * string) :=
  [("tokenId", Asset.tokenId doc);
   ("collectionId", Asset.collectionId doc);
   ("chain", Asset.chain doc);
   ("metadataUri", Asset.metadataUri doc);
   ("imageUri", Asset.imageUri doc);
   ("createdByUserId", Asset.createdByUserId doc)].

Definition validate `{Platform} (doc : Asset.t) : option JsError :=
  match find (fun p => String.eqb (snd p) "") (required doc) with
  | Some (path, _) => Some (ValidationError path)
  | None =>
      if ObjectId_accepts (Asset.createdByUserId doc) then None
      else Some (CastError "ObjectId" "createdByUserId")
  end.

Definition create `{Platform} (doc : Asset.t) (o : Options) : Async Asset.t :=
  fun st =>
    let d := view o st in
    match validate doc with
    | Some e => (Throw e, st)
    | None =>
        match insertOne indexes doc (assets d) with
        | Throw e => (Throw e, st)
        | Normal docs => (Normal doc, write o (set_assets docs d) st)
        end
    end.

Definition findOne (filter : Asset.t -> bool) (o : Options) : Async (option Asset.t) :=
  fun st => (Normal (find filter (assets (view o st))), st).
End NftAsset.

Module MintReceipt.
(** A missing [idempotencyKey] is indexed as [null]. *)
Definition indexes `{Platform} : list (string * (Receipt.t -> Receipt.t -> bool)) :=
  ("_id_", fun a b => N.eqb (Receipt._id a) (Receipt._id b))
  :: (if receipt_pair_index uniqueKeys
      then [("userId_1_idempotencyKey_1",
             fun a b =>
               String.eqb (Receipt.userId a) (Receipt.userId b)
               && option_eqb String.eqb (Receipt.idempotencyKey a)
                                        (Receipt.idempotencyKey b))]
      else []).

Definition create `{Platform} (doc : Receipt.t) (o : Options) : Async Receipt.t :=
  fun st =>
    let d := view o st in
    match insertOne indexes doc (receipts d) with
    | Throw e => (Throw e, st)
    | Normal docs => (Normal doc, write o (set_receipts docs d) st)
    end.

Definition findOne (filter : Receipt.t -> bool) (o : Options) : Async (option Receipt.t) :=
  fun st => (Normal (find filter (receipts (view o st))), st).
End MintReceipt.

Module AuditEvent.
Definition indexes : list (string * (Audit.t -> Audit.t -> bool)) :=
  [("_id_", fun a b => N.eqb (Audit._id a) (Audit._id b))].

Definition create (doc : Audit.t) (o : Options) : Async Audit.t :=
  fun st =>
    let d := view o st in
    match insertOne indexes doc (audits d) with
    | Throw e => (Throw e, st)
    | Normal docs => (Normal doc, write o (set_audits docs d) st)
    end.
End AuditEvent.

(** ** [executeMintFlow] *)

(** [await] of a settled promise. *)
Definition await (p : Settled) : Async GenerateContentResponse :=
  match p with
  | Resolved response => ret response
  | Rejected reason => throw reason
  end.

(** [imageResponse.candidates[0].content.parts], as the operand of
    [for ... of]: every [undefined] on the way is a TypeError. *)
Definition partsOf (imageResponse : GenerateContentResponse) : Completion (list Part) :=
  match candidates imageResponse with
  | None => Throw (TypeError "Cannot read properties of undefined (reading '0')")
  | Some [] => Throw (TypeError "Cannot read properties of undefined (reading 'content')")
  | Some (candidate :: _) =>
      match content candidate with
      | None => Throw (TypeError "Cannot read properties of undefined (reading 'parts')")
      | Some c =>
          match parts c with
          | None => Throw (TypeError "undefined is not iterable")
          | Some ps => Normal ps
          end
      end
  end.

(** The loop over the parts: the first part with [inlineData] sets
    [base64Image] to its [data] and breaks. *)
Fixpoint scanParts (base64Image : option string) (ps : list Part) : option string :=
  match ps with
  | [] => base64Image
  | part :: rest =>
      match inlineData part with
      | Some inline => data inline
      | None => scanParts base64Image rest
      end
  end.

(** [base64Image] when it is truthy: a string that is not empty. *)
Definition truthy (v : option string) : option string :=
  match v with
  | Some s => if String.eqb s "" then None else Some s
  | None => None
  end.

Definition prompt (m : Meta) : string :=
  "A futuristic accountability artifact based on the concept: " ++ concept m
  ++ ". Theme: " ++ theme m ++ ". High detail, cinematic lighting.".

Definition mintTokenId (w : World) : string :=
  "TOK-" ++ Z_to_string (Date_now w) ++ "-" ++ Z_to_string (Math_random_1000 w).

Definition mintTxHash (w : World) : string := "0x-internal-" ++ Math_random_hex w.

(** The filter [{ userId, balance: { $gte: priceCredits } }]. *)
Definition canPay (userId : string) (price : Z) (d : Wallet.t) : bool :=
  String.eqb (Wallet.userId d) userId && (price <=? Wallet.balance d).

(** The update [{ $inc: { balance: -priceCredits, lockedBalance:
    priceCredits }, $set: { updatedAt: new Date() } }]. *)
Definition lockUpdate (price now : Z) (d : Wallet.t) : Wallet.t :=
  Wallet.mk (Wallet.userId d) (inc (Wallet.balance d) (- price))
            (inc (Wallet.lockedBalance d) price) now.

(** The update [{ $inc: { lockedBalance: -priceCredits } }]. *)
Definition settleUpdate (price : Z) (d : Wallet.t) : Wallet.t :=
  Wallet.mk (Wallet.userId d) (Wallet.balance d)
            (inc (Wallet.lockedBalance d) (- price)) (Wallet.updatedAt d).

Definition ofUser (userId : string) (d : Wallet.t) : bool :=
  String.eqb (Wallet.userId d) userId.

(** The filter [{ userId, idempotencyKey }] on receipts and on requests. *)
Definition receiptOf (userId key : string) (r : Receipt.t) : bool :=
  String.eqb (Receipt.userId r) userId
  && option_eqb String.eqb (Receipt.idempotencyKey r) (Some key).

Definition requestOf (userId key : string) (r : Request.t) : bool :=
  String.eqb (Request.userId r) userId
  && String.eqb (idempotencyKey (Request.payload r)) key.

Definition setStatus (s : Request.Status) (e : option string) (r : Request.t) : Request.t :=
  Request.mk (Request._id r) (Request.payload r) (Request.userId r) s
             (match e with Some _ => e | None => Request.error r end).

(** The body of the [try] block, steps 1 to 8 and the commit. *)
Definition mintSteps `{Platform} (w : World) (userId : string) (payload : Payload)
    : Async Receipt.t :=
  (* 1. Lock Credits *)
  wallet <- CreditWallet.findOneAndUpdate
              (canPay userId (priceCredits payload))
              (lockUpdate (priceCredits payload) (new_Date w)) withSession ;;
  match wallet with
  | None => throw (Error "INSUFFICIENT_CREDITS")
  | Some _ =>
  lockLedger <- CreditLedger.create
    (Ledger.mk (lockLedger_id w) userId "CREDIT_LOCK" (priceCredits payload) "DEBIT"
               (Ledger.Draft (assetDraftId payload))
               ("lock-" ++ idempotencyKey payload)) withSession ;;
  (* 2. Initialize Request *)
  request <- MintRequest.create
    (Request.mk (request_id w) payload userId Request.PROCESSING None) withSession ;;
  (* 3. Generate Image *)
  match meta payload with
  | None => throw (TypeError "Cannot read properties of undefined (reading 'concept')")
  | Some m =>
  imageResponse <- await (generateContent w
    {| model := "gemini-2.5-flash-image"; contents := [prompt m]; aspectRatio := "1:1" |}) ;;
  ps <- complete (partsOf imageResponse) ;;
  match truthy (scanParts (Some "") ps) with
  | None => throw (Error "IMAGE_GENERATION_FAILED")
  | Some base64Image =>
  (* 4. Perform Mint *)
  let tokenId := mintTokenId w in
  let txHash := mintTxHash w in
  (* 5. Create Asset and Store Image Data *)
  asset <- NftAsset.create
    (Asset.mk (asset_id w) tokenId (collectionId payload) (chain payload)
              ("dpal://metadata/" ++ tokenId)
              ("/api/assets/" ++ tokenId ++ ".png")
              (match attributes payload with Some l => l | None => [] end)
              userId Asset.MINTED
              (Some (Buffer_from_base64 base64Image))) withSession ;;
  (* 6. Settle Credits *)
  CreditWallet.updateOne (ofUser userId) (settleUpdate (priceCredits payload))
                         withSession ;;;
  CreditLedger.create
    (Ledger.mk (spendLedger_id w) userId "CREDIT_SPEND" (priceCredits payload) "DEBIT"
               (Ledger.Request (Request._id request))
               ("spend-" ++ idempotencyKey payload)) withSession ;;;
  (* 7. Final Receipt *)
  receipt <- MintReceipt.create
    (Receipt.mk (receipt_id w) (Request._id request) userId None tokenId txHash
                (chain payload) (Asset.metadataUri asset) (Asset.imageUri asset)
                (priceCredits payload) (Ledger._id lockLedger)) withSession ;;
  MintRequest.updateOne
    (fun r => N.eqb (Request._id r) (Request._id request))
    (setStatus Request.COMPLETED None) withSession ;;;
  (* 8. Audit *)
  AuditEvent.create
    (Audit.mk (audit_id w) userId "NFT_MINT" "NftAsset" (Asset._id asset) txHash
              (priceCredits payload) tokenId) withSession ;;;
  commitTransaction ;;;
  ret receipt
  end end end.

(** The write of the [catch] block: the request of the pair is marked
    FAILED, outside the session. *)
Definition annotateFailure (w : World) (userId : string) (payload : Payload)
    (error : JsError) : Async unit :=
  match annotation_failure w with
  | Some e => throw e
  | None =>
      MintRequest.updateOne (requestOf userId (idempotencyKey payload))
        (setStatus Request.FAILED (Some (message error))) noSession
  end.

Definition executeMintFlow `{Platform} (w : World) (userId : string) (payload : Payload)
    : Async Receipt.t :=
  (* Check Idempotency First *)
  existingReceipt <- MintReceipt.findOne (receiptOf userId (idempotencyKey payload))
                                         noSession ;;
  match existingReceipt with
  | Some r => ret r
  | None =>
      startTransaction ;;;
      tryCatchFinally
        (mintSteps w userId payload)
        (fun error =>
           abortTransaction ;;;
           tryIgnore (annotateFailure w userId payload error) ;;;
           throw error)
        endSession
  end.

(** ** [serveAssetImage] *)

Record ServedImage := { buffer : Buffer; mimeType : string }.

Definition serveAssetImage (tokenId : string) : Async ServedImage :=
  asset <- NftAsset.findOne (fun a => String.eqb (Asset.tokenId a) tokenId) noSession ;;
  match asset with
  | None => throw (Error "ASSET_NOT_FOUND")
  | Some a =>
      match Asset.imageData a with
      | None => throw (Error "ASSET_NOT_FOUND")
      | Some bytes => ret {| buffer := bytes; mimeType := "image/png" |}
      end
  end.

(** ** Sample platforms, worlds and databases *)

Module Sample.
Local Open Scope N_scope.

(** A base64 decoder in the manner of Node's: characters outside the
    alphabet are skipped, decoding stops at the padding. *)
Definition sextet (c : ascii) : option N :=
  let n := N_of_ascii c in
  if (65 <=? n) && (n <=? 90) then Some (n - 65)
  else if (97 <=? n) && (n <=? 122) then Some (n - 71)
  else if (48 <=? n) && (n <=? 57) then Some (n + 4)
  else if (n =? 43) || (n =? 45) then Some 62
  else if (n =? 47) || (n =? 95) then Some 63
  else None.

Fixpoint sextets (s : string) : list N :=
  match s with
  | EmptyString => []
  | String c rest =>
      if Ascii.eqb c "="%char then []
      else match sextet c with
           | Some v => v :: sextets rest
           | None => sextets rest
           end
  end.

Definition octet (n : N) : Byte.byte :=
  match Byte.of_N (n mod 256) with
  | Some b => b
  | None => Byte.x00
  end.

Fixpoint octets (l : list N) : list Byte.byte :=
  match l with
  | a :: b :: c :: d :: rest =>
      let v := a * 262144 + b * 4096 + c * 64 + d in
      octet (v / 65536) :: octet (v / 256) :: octet v :: octets rest
  | [a; b; c] =>
      let v := a * 262144 + b * 4096 + c * 64 in
      [octet (v / 65536); octet (v / 256)]
  | [a; b] =>
      let v := a * 262144 + b * 4096 in
      [octet (v / 65536)]
  | _ => []
  end.

Definition decode (s : string) : Buffer := octets (sextets s).

(** A string of 24 hexadecimal digits. *)
Definition hexDigit (c : ascii) : bool :=
  let n := N_of_ascii c in
  ((48 <=? n) && (n <=? 57)) || ((97 <=? n) && (n <=? 102))
  || ((65 <=? n) && (n <=? 70)).

Fixpoint allHex (s : string) : bool :=
  match s with
  | EmptyString => true
  | String c rest => hexDigit c && allHex rest
  end.

Definition hex24 (s : string) : bool := (String.length s =? 24)%nat && allHex s.

(** The deployment the spec describes: every unique key is an index. *)
Definition indexed : Platform :=
  {| Buffer_from_base64 := decode;
     ObjectId_accepts := hex24;
     uniqueKeys := {| ledger_key_index := true;
                      request_pair_index := true;
                      receipt_pair_index := true |} |}.

(** A deployment whose missing schemas declare no unique key. *)
Definition bare : Platform :=
  {| Buffer_from_base64 := decode;
     ObjectId_accepts := hex24;
     uniqueKeys := {| ledger_key_index := false;
                      request_pair_index := false;
                      receipt_pair_index := false |} |}.

Definition alice : string := "64b7f0c2a1d3e4f5a6b7c8d9".

Definition wallet (balance : Z) : Wallet.t :=
  Wallet.mk alice balance 0%Z 1700000000000%Z.

(** One wallet and nothing else. *)
Definition funded (balance : Z) : DB := mkDB [wallet balance] [] [] [] [] [].

Definition payload : Payload :=
  {| idempotencyKey := "key-1";
     meta := Some {| concept := "river cleanup"; theme := "civic" |};
     assetDraftId := "draft-1";
     collectionId := "col-1";
     chain := "internal";
     priceCredits := 30%Z;
     attributes := None |}.

Definition image : GenerateContentResponse :=
  {| candidates := Some [ {| content := Some {| parts := Some
       [ {| text := Some "here is the artifact"; inlineData := None |};
         {| text := None; inlineData := Some {| data := Some "iVBORw0KGgo=" |} |} ] |} |} ] |}.

(** A response whose parts carry no image. *)
Definition noImage : GenerateContentResponse :=
  {| candidates := Some [ {| content := Some {| parts := Some
       [ {| text := Some "I cannot draw that"; inlineData := None |} ] |} |} ] |}.

(** A response without candidates. *)
Definition blocked : GenerateContentResponse := {| candidates := None |}.

Definition world (n : N) (p : Settled) : World :=
  {| generateContent := fun _ => p;
     new_Date := 1730000000000 + Z.of_N n;
     Date_now := 1730000000500 + Z.of_N n;
     Math_random_1000 := 417;
     Math_random_hex := "8f3a2c1d9b";
     lockLedger_id := 6 * n + 1;
     request_id := 6 * n + 2;
     asset_id := 6 * n + 3;
     spendLedger_id := 6 * n + 4;
     receipt_id := 6 * n + 5;
     audit_id := 6 * n + 6;
     annotation_failure := None |}.
End Sample.

(** ** The documents and the database of a completed mint

    The same records that [mintSteps] builds in place, named so that the
    statements below can refer to them. *)

Definition generationParameters (m : Meta) : GenerateContentParameters :=
  {| model := "gemini-2.5-flash-image"; contents := [prompt m]; aspectRatio := "1:1" |}.

(** The image of a settled call, if the loop finds a usable one. *)
Definition usableImage (s : Settled) : option string :=
  match s with
  | Rejected _ => None
  | Resolved response =>
      match partsOf response with
      | Normal ps => truthy (scanParts (Some "") ps)
      | Throw _ => None
      end
  end.

Definition lockEntry (w : World) (userId : string) (payload : Payload) : Ledger.t :=
  Ledger.mk (lockLedger_id w) userId "CREDIT_LOCK" (priceCredits payload) "DEBIT"
            (Ledger.Draft (assetDraftId payload)) ("lock-" ++ idempotencyKey payload).

Definition spendEntry (w : World) (userId : string) (payload : Payload) : Ledger.t :=
  Ledger.mk (spendLedger_id w) userId "CREDIT_SPEND" (priceCredits payload) "DEBIT"
            (Ledger.Request (request_id w)) ("spend-" ++ idempotencyKey payload).

Definition requestDoc (w : World) (userId : string) (payload : Payload) : Request.t :=
  Request.mk (request_id w) payload userId Request.PROCESSING None.

Definition assetDoc `{Platform} (w : World) (userId : string) (payload : Payload)
    (base64Image : string) : Asset.t :=
  Asset.mk (asset_id w) (mintTokenId w) (collectionId payload) (chain payload)
           ("dpal://metadata/" ++ mintTokenId w)
           ("/api/assets/" ++ mintTokenId w ++ ".png")
           (match attributes payload with Some l => l | None => [] end)
           userId Asset.MINTED (Some (Buffer_from_base64 base64Image)).

Definition receiptDoc (w : World) (userId : string) (payload : Payload) : Receipt.t :=
  Receipt.mk (receipt_id w) (request_id w) userId None (mintTokenId w) (mintTxHash w)
             (chain payload) ("dpal://metadata/" ++ mintTokenId w)
             ("/api/assets/" ++ mintTokenId w ++ ".png")
             (priceCredits payload) (lockLedger_id w).

Definition auditDoc (w : World) (userId : string) (payload : Payload) : Audit.t :=
  Audit.mk (audit_id w) userId "NFT_MINT" "NftAsset" (asset_id w) (mintTxHash w)
           (priceCredits payload) (mintTokenId w).

(** The database that a mint commits. *)
Definition minted `{Platform} (w : World) (userId : string) (payload : Payload)
    (base64Image : string) (d : DB) : DB :=
  mkDB
    (updateFirst (ofUser userId) (settleUpdate (priceCredits payload))
       (updateFirst (canPay userId (priceCredits payload))
          (lockUpdate (priceCredits payload) (new_Date w)) (wallets d)))
    (ledger d ++ [lockEntry w userId payload; spendEntry w userId payload])%list
    (updateFirst (fun r => N.eqb (Request._id r) (request_id w))
       (setStatus Request.COMPLETED None)
       (requests d ++ [requestDoc w userId payload])%list)
    (assets d ++ [assetDoc w userId payload base64Image])%list
    (receipts d ++ [receiptDoc w userId payload])%list
    (audits d ++ [auditDoc w userId payload])%list.

(** The database after a failed mint: the one before it, with the write of
    the [catch] block when that write goes through. *)
Definition annotated (w : World) (userId : string) (payload : Payload)
    (error : JsError) (d : DB) : DB :=
  match annotation_failure w with
  | Some _ => d
  | None =>
      set_requests
        (updateFirst (requestOf userId (idempotencyKey payload))
           (setStatus Request.FAILED (Some (message error))) (requests d)) d
  end.

(** One call of [executeMintFlow], and a sequence of calls, each on the
    database the one before it left. *)
Record Call := { world : World; user : string; request : Payload }.

Definition call `{Platform} (c : Call) (d : DB) : Completion Receipt.t * DB :=
  let (r, st) := executeMintFlow (world c) (user c) (request c) (atRest d) in
  (r, committed st).

Fixpoint callAll `{Platform} (cs : list Call) (d : DB) : DB :=
  match cs with
  | [] => d
  | c :: rest => callAll rest (snd (call c d))
  end.

(** The world in which the write of the [catch] block fails with [e]. *)
Definition failingAnnotation (e : JsError) (w : World) : World :=
  {| generateContent := generateContent w;
     new_Date := new_Date w;
     Date_now := Date_now w;
     Math_random_1000 := Math_random_1000 w;
     Math_random_hex := Math_random_hex w;
     lockLedger_id := lockLedger_id w;
     request_id := request_id w;
     asset_id := asset_id w;
     spendLedger_id := spendLedger_id w;
     receipt_id := receipt_id w;
     audit_id := audit_id w;
     annotation_failure := Some e |}.

(** No two assets with one [tokenId]: what the unique index of
    [NftAssetSchema] maintains. *)
Definition uniqueTokens (d : DB) : Prop := NoDup (map Asset.tokenId (assets d)).

(** Modelled from the spec: the CreditWallet schema is missing; section 6
    of the spec has [Wallet{userId unique}], one wallet a user. *)
Definition uniqueWallets (d : DB) : Prop := NoDup (map Wallet.userId (wallets d)).

(** The two errors the service names, the image it serves, and the filter
    [{ tokenId }]. *)
Definition generationFailed : JsError := Error "IMAGE_GENERATION_FAILED".
Definition notFound : JsError := Error "ASSET_NOT_FOUND".

Definition png (bytes : Buffer) : ServedImage :=
  {| buffer := bytes; mimeType := "image/png" |}.

Definition hasToken (t : string) (a : Asset.t) : bool := String.eqb (Asset.tokenId a) t.

(** ** Scenarios *)

Module Scenario.
(** The same call twice, one tick apart. *)
Definition twice : list Call :=
  [ {| world := Sample.world 0 (Resolved Sample.image);
       user := Sample.alice; request := Sample.payload |};
    {| world := Sample.world 1 (Resolved Sample.image);
       user := Sample.alice; request := Sample.payload |} ].

(** An asset document that has no image: a draft. *)
Definition draft : Asset.t :=
  Asset.mk 90%N "TOK-DRAFT" "col-1" "internal" "dpal://metadata/TOK-DRAFT"
           "/api/assets/TOK-DRAFT.png" [] Sample.alice Asset.DRAFT None.

Definition withDraft : DB := mkDB [] [] [] [draft] [] [].

(** The provider cannot be reached. *)
Definition unreachable : Settled := Rejected (Error "fetch failed").

(** A second user's call in the millisecond of the first, with the same
    random draw. *)
Definition bob : string := "64b7f0c2a1d3e4f5a6b7c8da".

Definition sameTick : World :=
  {| generateContent := fun _ => Resolved Sample.image;
     new_Date := 1730000000000;
     Date_now := 1730000000500;
     Math_random_1000 := 417;
     Math_random_hex := "c41e77a0b2";
     lockLedger_id := 7%N;
     request_id := 8%N;
     asset_id := 9%N;
     spendLedger_id := 10%N;
     receipt_id := 11%N;
     audit_id := 12%N;
     annotation_failure := None |}.

Definition twoUsers : DB :=
  mkDB [Sample.wallet 100; Wallet.mk bob 100 0 1700000000000] [] [] [] [] [].

Definition collision : list Call :=
  [ {| world := Sample.world 0 (Resolved Sample.image);
       user := Sample.alice; request := Sample.payload |};
    {| world := sameTick; user := bob; request := Sample.payload |} ].

(** Two wallet documents of one user, the first too poor. *)
Definition twoWallets : DB :=
  mkDB [Sample.wallet 10; Sample.wallet 100] [] [] [] [] [].
End Scenario.

(** ** Accounts, and the edges of the input *)

(** What the ledger says a user has spent: the amounts of the user's
    CREDIT_SPEND entries. *)
Definition isSpend (u : string) (e : Ledger.t) : bool :=
  String.eqb (Ledger.type e) "CREDIT_SPEND" && String.eqb (Ledger.userId e) u.

Fixpoint spent (u : string) (l : list Ledger.t) : Z :=
  match l with
  | [] => 0
  | e :: rest => (if isSpend u e then Ledger.amount e else 0) + spent u rest
  end.

(** The balance of the wallet that [{ userId }] finds, 0 without one. *)
Definition balanceOf (u : string) (ws : list Wallet.t) : Z :=
  match find (ofUser u) ws with
  | Some d => Wallet.balance d
  | None => 0
  end.

(** The second database holds the documents of the first, in their
    places, and maybe more after them, in the four collections that the
    service only creates into. *)
Definition extends (d d' : DB) : Prop :=
  (exists l, ledger d' = (ledger d ++ l)%list) /\
  (exists l, assets d' = (assets d ++ l)%list) /\
  (exists l, receipts d' = (receipts d ++ l)%list) /\
  (exists l, audits d' = (audits d ++ l)%list).

(** A ledger made of lock entries each followed by its spend entry. *)
Inductive paired : list Ledger.t -> Prop :=
| paired_nil : paired []
| paired_cons lock spend key rest :
    Ledger.type lock = "CREDIT_LOCK" ->
    Ledger.type spend = "CREDIT_SPEND" ->
    Ledger.idempotencyKey lock = "lock-" ++ key ->
    Ledger.idempotencyKey spend = "spend-" ++ key ->
    Ledger.userId lock = Ledger.userId spend ->
    Ledger.amount lock = Ledger.amount spend ->
    paired rest ->
    paired (lock :: spend :: rest).

(** What has to hold for the steps to go through: the wallet can pay, the
    provider sends [img], the asset is valid, and no index refuses one of
    the six documents. *)
Definition goesThrough `{Platform} (w : World) (u : string) (p : Payload)
    (img : string) (d : DB) : Prop :=
  find (canPay u (priceCredits p)) (wallets d) <> None /\
  violated CreditLedger.indexes (lockEntry w u p) (ledger d) = None /\
  violated MintRequest.indexes (requestDoc w u p) (requests d) = None /\
  (exists m, meta p = Some m /\
             usableImage (generateContent w (generationParameters m)) = Some img) /\
  NftAsset.validate (assetDoc w u p img) = None /\
  violated NftAsset.indexes (assetDoc w u p img) (assets d) = None /\
  violated CreditLedger.indexes (spendEntry w u p)
    (ledger d ++ [lockEntry w u p])%list = None /\
  violated MintReceipt.indexes (receiptDoc w u p) (receipts d) = None /\
  violated AuditEvent.indexes (auditDoc w u p) (audits d) = None.

(** A string without the character [-]. *)
Fixpoint dashFree (s : string) : Prop :=
  match s with
  | EmptyString => True
  | String c rest => c <> "-"%char /\ dashFree rest
  end.

Module Edge.
(** A payload with a negative price. *)
Definition refund : Payload :=
  {| idempotencyKey := "key-2";
     meta := Some {| concept := "river cleanup"; theme := "civic" |};
     assetDraftId := "draft-2";
     collectionId := "col-1";
     chain := "internal";
     priceCredits := -30;
     attributes := None |}.

(** A payload without [meta], and one with an empty [collectionId]. *)
Definition noMeta : Payload :=
  {| idempotencyKey := "key-3";
     meta := None;
     assetDraftId := "draft-3";
     collectionId := "col-1";
     chain := "internal";
     priceCredits := 30;
     attributes := None |}.

Definition noCollection : Payload :=
  {| idempotencyKey := "key-4";
     meta := Some {| concept := "river cleanup"; theme := "civic" |};
     assetDraftId := "draft-4";
     collectionId := "";
     chain := "internal";
     priceCredits := 30;
     attributes := None |}.

(** A response whose first inline part is empty and whose second holds an
    image. *)
Definition emptyFirst : list Part :=
  [ {| text := Some "two attempts"; inlineData := None |};
    {| text := None; inlineData := Some {| data := Some "" |} |};
    {| text := None; inlineData := Some {| data := Some "iVBORw0KGgo=" |} |} ].

Definition emptyFirstResponse : GenerateContentResponse :=
  {| candidates := Some [ {| content := Some {| parts := Some emptyFirst |} |} ] |}.

(** The database after the first mint of [Scenario.twice]. *)
Definition afterFirst : DB :=
  snd (@call Sample.indexed
         {| world := Sample.world 0 (Resolved Sample.image);
            user := Sample.alice; request := Sample.payload |}
         (Sample.funded 100)).

(** A price of one credit, and a wallet of 2^53 + 2 credits. *)
Definition oneCredit : Payload :=
  {| idempotencyKey := "key-5";
     meta := Some {| concept := "river cleanup"; theme := "civic" |};
     assetDraftId := "draft-5";
     collectionId := "col-1";
     chain := "internal";
     priceCredits := 1;
     attributes := None |}.

Definition brimful : DB := Sample.funded 9007199254740994.

(** A receipt that carries the key, as another writer would store it. *)
Definition keyed : Receipt.t :=
  Receipt.mk 70%N 71%N Sample.alice (Some "key-1") "TOK-OLD" "0x-internal-old"
             "internal" "dpal://metadata/TOK-OLD" "/api/assets/TOK-OLD.png" 30 72%N.

Definition withKeyed : DB := mkDB [Sample.wallet 100] [] [] [] [keyed] [].
End Edge.

(** * Reasoning about computations *)

Lemma bind_run {A B} (c : Async A) (k : A -> Async B) st :
  bind c k st =
  match c st with
  | (Normal a, st') => k a st'
  | (Throw e, st') => (Throw e, st')
  end.
Proof. reflexivity. Qed.

Lemma insertOne_normal {T} (ix : list (string * (T -> T -> bool))) doc docs l :
  insertOne ix doc docs = Normal l ->
  violated ix doc docs = None /\ l = (docs ++ [doc])%list.
Proof.
  unfold insertOne. destruct (violated ix doc docs); intros E.
  - discriminate E.
  - injection E as <-. split; reflexivity.
Qed.

Lemma insertOne_throw {T} (ix : list (string * (T -> T -> bool))) doc docs e :
  insertOne ix doc docs = Throw e ->
  exists index, violated ix doc docs = Some index /\ e = DuplicateKey index.
Proof.
  unfold insertOne. destruct (violated ix doc docs) as [i|]; intros E.
  - injection E as <-. exists i. split; reflexivity.
  - discriminate E.
Qed.

(** ** Operations of a session with an open transaction *)

Section OpenTransaction.
Context `{Platform}.
Variables c t : DB.

Lemma findOneAndUpdate_open f g :
  CreditWallet.findOneAndUpdate f g withSession (mkStore c (Some t)) =
  (Normal (option_map g (find f (wallets t))),
   mkStore c (Some (set_wallets (updateFirst f g (wallets t)) t))).
Proof. reflexivity. Qed.

Lemma wallet_updateOne_open f g :
  CreditWallet.updateOne f g withSession (mkStore c (Some t)) =
  (Normal tt, mkStore c (Some (set_wallets (updateFirst f g (wallets t)) t))).
Proof. reflexivity. Qed.

Lemma ledger_create_open doc :
  CreditLedger.create doc withSession (mkStore c (Some t)) =
  match insertOne CreditLedger.indexes doc (ledger t) with
  | Normal docs => (Normal doc, mkStore c (Some (set_ledger docs t)))
  | Throw e => (Throw e, mkStore c (Some t))
  end.
Proof. reflexivity. Qed.

Lemma request_create_open doc :
  MintRequest.create doc withSession (mkStore c (Some t)) =
  match insertOne MintRequest.indexes doc (requests t) with
  | Normal docs => (Normal doc, mkStore c (Some (set_requests docs t)))
  | Throw e => (Throw e, mkStore c (Some t))
  end.
Proof. reflexivity. Qed.

Lemma request_updateOne_open f g :
  MintRequest.updateOne f g withSession (mkStore c (Some t)) =
  (Normal tt, mkStore c (Some (set_requests (updateFirst f g (requests t)) t))).
Proof. reflexivity. Qed.

Lemma asset_create_open doc :
  NftAsset.create doc withSession (mkStore c (Some t)) =
  match NftAsset.validate doc with
  | Some e => (Throw e, mkStore c (Some t))
  | None =>
      match insertOne NftAsset.indexes doc (assets t) with
      | Normal docs => (Normal doc, mkStore c (Some (set_assets docs t)))
      | Throw e => (Throw e, mkStore c (Some t))
      end
  end.
Proof. reflexivity. Qed.

Lemma receipt_create_open doc :
  MintReceipt.create doc withSession (mkStore c (Some t)) =
  match insertOne MintReceipt.indexes doc (receipts t) with
  | Normal docs => (Normal doc, mkStore c (Some (set_receipts docs t)))
  | Throw e => (Throw e, mkStore c (Some t))
  end.
Proof. reflexivity. Qed.

Lemma audit_create_open doc :
  AuditEvent.create doc withSession (mkStore c (Some t)) =
  match insertOne AuditEvent.indexes doc (audits t) with
  | Normal docs => (Normal doc, mkStore c (Some (set_audits docs t)))
  | Throw e => (Throw e, mkStore c (Some t))
  end.
Proof. reflexivity. Qed.

Lemma commit_open : commitTransaction (mkStore c (Some t)) = (Normal tt, mkStore t None).
Proof. reflexivity. Qed.
End OpenTransaction.

(** A computation that leaves the committed database alone and the
    transaction open, however it completes. *)
Definition inSession {A} (m : Async A) : Prop :=
  forall c t, exists t', snd (m (mkStore c (Some t))) = mkStore c (Some t').

(** A computation whose throw leaves the committed database as it was. *)
Definition abortable {A} (m : Async A) : Prop :=
  forall c t e st, m (mkStore c (Some t)) = (Throw e, st) -> committed st = c.

Lemma inSession_abortable {A} (m : Async A) : inSession m -> abortable m.
Proof.
  intros S c t e st E. destruct (S c t) as [t' S']. rewrite E in S'.
  cbn in S'. subst st. reflexivity.
Qed.

Lemma abortable_bind {A B} (m : Async A) (k : A -> Async B) :
  inSession m -> (forall a, abortable (k a)) -> abortable (bind m k).
Proof.
  intros S K c t e st. rewrite bind_run.
  destruct (S c t) as [t' S']. destruct (m (mkStore c (Some t))) as [[a|e'] st1].
  - cbn in S'. subst st1. apply K.
  - cbn in S'. subst st1. intros E. injection E as _ <-. reflexivity.
Qed.

Section Saga.
Context `{Platform}.

Lemma inSession_findOneAndUpdate f g : inSession (CreditWallet.findOneAndUpdate f g withSession).
Proof. intros c t. eexists. reflexivity. Qed.

Lemma inSession_wallet_updateOne f g : inSession (CreditWallet.updateOne f g withSession).
Proof. intros c t. eexists. reflexivity. Qed.

Lemma inSession_request_updateOne f g : inSession (MintRequest.updateOne f g withSession).
Proof. intros c t. eexists. reflexivity. Qed.

Lemma inSession_ledger_create doc : inSession (CreditLedger.create doc withSession).
Proof.
  intros c t. rewrite ledger_create_open.
  destruct (insertOne _ _ _); eexists; reflexivity.
Qed.

Lemma inSession_request_create doc : inSession (MintRequest.create doc withSession).
Proof.
  intros c t. rewrite request_create_open.
  destruct (insertOne _ _ _); eexists; reflexivity.
Qed.

Lemma inSession_asset_create doc : inSession (NftAsset.create doc withSession).
Proof.
  intros c t. rewrite asset_create_open.
  destruct (NftAsset.validate doc); [|destruct (insertOne _ _ _)]; eexists; reflexivity.
Qed.

Lemma inSession_receipt_create doc : inSession (MintReceipt.create doc withSession).
Proof.
  intros c t. rewrite receipt_create_open.
  destruct (insertOne _ _ _); eexists; reflexivity.
Qed.

Lemma inSession_audit_create doc : inSession (AuditEvent.create doc withSession).
Proof.
  intros c t. rewrite audit_create_open.
  destruct (insertOne _ _ _); eexists; reflexivity.
Qed.

Lemma inSession_complete {A} (r : Completion A) : inSession (complete r).
Proof. intros c t. eexists. reflexivity. Qed.

Lemma inSession_await p : inSession (await p).
Proof. intros c t. destruct p; eexists; reflexivity. Qed.

Lemma abortable_throw {A} e : abortable (@throw A e).
Proof. intros c t e' st E. injection E as _ <-. reflexivity. Qed.

Lemma abortable_commit {A} (a : A) : abortable (commitTransaction ;;; ret a).
Proof. intros c t e st E. discriminate E. Qed.

Create HintDb saga.
#[local] Hint Resolve inSession_findOneAndUpdate inSession_wallet_updateOne
  inSession_request_updateOne inSession_ledger_create inSession_request_create
  inSession_asset_create inSession_receipt_create inSession_audit_create
  inSession_complete inSession_await abortable_throw abortable_commit : saga.

(** Whatever [mintSteps] throws, it has committed nothing. *)
Lemma mintSteps_abortable w u p : abortable (mintSteps w u p).
Proof.
  unfold mintSteps.
  apply abortable_bind; [auto with saga|]. intros [w0|]; [|auto with saga].
  apply abortable_bind; [auto with saga|]. intros lockLedger.
  apply abortable_bind; [auto with saga|]. intros request.
  destruct (meta p) as [m|]; [|auto with saga].
  apply abortable_bind; [auto with saga|]. intros imageResponse.
  apply abortable_bind; [auto with saga|]. intros ps.
  destruct (truthy _) as [base64Image|]; [|auto with saga].
  repeat first [ apply abortable_commit | apply abortable_bind; [auto with saga|]; intros ? ].
Qed.

(** What [mintSteps] has done when it returns. *)
Lemma mintSteps_returns w u p c t r st :
  mintSteps w u p (mkStore c (Some t)) = (Normal r, st) ->
  exists w0 m img,
    find (canPay u (priceCredits p)) (wallets t) = Some w0 /\
    meta p = Some m /\
    usableImage (generateContent w (generationParameters m)) = Some img /\
    violated NftAsset.indexes (assetDoc w u p img) (assets t) = None /\
    r = receiptDoc w u p /\
    st = mkStore (minted w u p img t) None.
Proof.
  unfold mintSteps. intros E.
  rewrite bind_run, findOneAndUpdate_open in E.
  destruct (find _ (wallets t)) as [w0|] eqn:Ew; cbn [option_map] in E; [|discriminate E].
  rewrite bind_run, ledger_create_open in E.
  destruct (insertOne _ _ _) as [l1|] eqn:E1 in E; [|discriminate E].
  apply insertOne_normal in E1 as [_ ->].
  rewrite bind_run, request_create_open in E.
  destruct (insertOne _ _ _) as [l2|] eqn:E2 in E; [|discriminate E].
  apply insertOne_normal in E2 as [_ ->].
  destruct (meta p) as [m|] eqn:Em; [|discriminate E].
  rewrite bind_run in E. unfold usableImage.
  change {| model := _; contents := _; aspectRatio := _ |}
    with (generationParameters m) in E.
  destruct (generateContent w (generationParameters m)) as [response|reason] eqn:Eg;
    [|discriminate E].
  cbn [await ret] in E. rewrite bind_run in E. unfold complete in E.
  destruct (partsOf response) as [ps|] eqn:Ep; [|discriminate E].
  destruct (truthy (scanParts (Some "") ps)) as [img|] eqn:Ei; [|discriminate E].
  rewrite bind_run, asset_create_open in E.
  destruct (NftAsset.validate _) eqn:Ev in E; [discriminate E|].
  destruct (insertOne _ _ _) as [l3|] eqn:E3 in E; [|discriminate E].
  apply insertOne_normal in E3 as [V3 ->].
  rewrite bind_run, wallet_updateOne_open in E.
  rewrite bind_run, ledger_create_open in E.
  destruct (insertOne _ _ _) as [l4|] eqn:E4 in E; [|discriminate E].
  apply insertOne_normal in E4 as [_ ->].
  rewrite bind_run, receipt_create_open in E.
  destruct (insertOne _ _ _) as [l5|] eqn:E5 in E; [|discriminate E].
  apply insertOne_normal in E5 as [_ ->].
  rewrite bind_run, request_updateOne_open in E.
  rewrite bind_run, audit_create_open in E.
  destruct (insertOne _ _ _) as [l6|] eqn:E6 in E; [|discriminate E].
  apply insertOne_normal in E6 as [_ ->].
  rewrite bind_run, commit_open in E. unfold ret in E.
  injection E as <- <-.
  exists w0, m, img. rewrite Eg, Ep.
  repeat split; try reflexivity; try assumption.
  unfold minted, set_audits, set_requests, set_receipts, set_ledger, set_wallets,
    set_assets.
  cbn [wallets ledger requests assets receipts audits].
  rewrite <- app_assoc. reflexivity.
Qed.

(** The flow when the gate finds a receipt. *)
Lemma executeMintFlow_hit w u p db r :
  find (receiptOf u (idempotencyKey p)) (receipts db) = Some r ->
  executeMintFlow w u p (atRest db) = (Normal r, atRest db).
Proof.
  intros E. unfold executeMintFlow. rewrite bind_run.
  unfold MintReceipt.findOne. cbn [view atRest transaction committed].
  rewrite E. reflexivity.
Qed.

(** The flow when the gate finds none: the steps run on a working copy;
    their result is committed, or dropped and the failure annotated. *)
Lemma executeMintFlow_miss w u p db :
  find (receiptOf u (idempotencyKey p)) (receipts db) = None ->
  executeMintFlow w u p (atRest db) =
  match mintSteps w u p (mkStore db (Some db)) with
  | (Normal r, st) => (Normal r, atRest (committed st))
  | (Throw e, st) => (Throw e, atRest (annotated w u p e (committed st)))
  end.
Proof.
  intros E. unfold executeMintFlow. rewrite bind_run.
  unfold MintReceipt.findOne. cbn [view atRest transaction committed].
  rewrite E. rewrite bind_run. unfold startTransaction, tryCatchFinally.
  cbn [committed].
  destruct (mintSteps w u p _) as [[r|e] st].
  - reflexivity.
  - rewrite bind_run. unfold abortTransaction. rewrite bind_run.
    unfold tryIgnore, annotateFailure, annotated.
    destruct (annotation_failure w); reflexivity.
Qed.

Lemma executeMintFlow_returns w u p db r st :
  find (receiptOf u (idempotencyKey p)) (receipts db) = None ->
  executeMintFlow w u p (atRest db) = (Normal r, st) ->
  exists w0 m img,
    find (canPay u (priceCredits p)) (wallets db) = Some w0 /\
    meta p = Some m /\
    usableImage (generateContent w (generationParameters m)) = Some img /\
    violated NftAsset.indexes (assetDoc w u p img) (assets db) = None /\
    r = receiptDoc w u p /\
    st = atRest (minted w u p img db).
Proof.
  intros G E. rewrite (executeMintFlow_miss _ _ _ _ G) in E.
  destruct (mintSteps w u p _) as [[r'|e] st'] eqn:S; [|discriminate E].
  injection E as <- <-.
  apply mintSteps_returns in S as (w0 & m & img & ? & ? & ? & ? & ? & ->).
  exists w0, m, img. auto 10.
Qed.

Lemma executeMintFlow_throws w u p db e st :
  find (receiptOf u (idempotencyKey p)) (receipts db) = None ->
  executeMintFlow w u p (atRest db) = (Throw e, st) ->
  st = atRest (annotated w u p e db).
Proof.
  intros G E. rewrite (executeMintFlow_miss _ _ _ _ G) in E.
  destruct (mintSteps w u p _) as [[r'|e'] st'] eqn:S; [discriminate E|].
  injection E as <- <-.
  apply mintSteps_abortable in S. rewrite S. reflexivity.
Qed.
End Saga.

(** * The scenarios of the spec, run *)

(** Scenario A: balance 100, price 30; final balance 70, one receipt, one
    asset. *)
Example scenario_A :
  let (r, st) := @executeMintFlow Sample.indexed (Sample.world 0 (Resolved Sample.image))
                   Sample.alice Sample.payload (atRest (Sample.funded 100)) in
  r = Normal (receiptDoc (Sample.world 0 (Resolved Sample.image))
                Sample.alice Sample.payload) /\
  map Wallet.balance (wallets (committed st)) = [70] /\
  map Wallet.lockedBalance (wallets (committed st)) = [0] /\
  length (receipts (committed st)) = 1%nat /\
  length (assets (committed st)) = 1%nat /\
  map Request.status (requests (committed st)) = [Request.COMPLETED] /\
  transaction st = None.
Proof. cbn. repeat split; reflexivity. Qed.

(** Scenario B: balance 10, price 30. *)
Example scenario_B :
  @executeMintFlow Sample.indexed (Sample.world 0 (Resolved Sample.image))
    Sample.alice Sample.payload (atRest (Sample.funded 10))
  = (Throw (Error "INSUFFICIENT_CREDITS"), atRest (Sample.funded 10)).
Proof. reflexivity. Qed.

(** A token identifier that is taken is refused by the index of the
    schema, and the second mint fails as a whole. *)
Example taken_tokenId_is_refused :
  fst (@call Sample.bare (nth 1 Scenario.collision
                            {| world := Scenario.sameTick; user := ""; request := Sample.payload |})
         (@callAll Sample.bare (firstn 1 Scenario.collision) Scenario.twoUsers))
  = Throw (DuplicateKey "tokenId_1") /\
  map Wallet.balance (wallets (@callAll Sample.bare Scenario.collision Scenario.twoUsers))
  = [70; 100].
Proof. split; reflexivity. Qed.

(** With two wallet documents of one user the lock and the settlement can
    update different documents; [uniqueWallets] rules it out. *)
Example lock_and_settle_part_ways :
  map (fun d => (Wallet.balance d, Wallet.lockedBalance d))
    (wallets (committed (snd (@executeMintFlow Sample.indexed
       (Sample.world 0 (Resolved Sample.image)) Sample.alice Sample.payload
       (atRest Scenario.twoWallets)))))
  = [(10, -30); (70, 30)].
Proof. reflexivity. Qed.

(** * Token identifiers *)

Lemma NoDup_snoc {T} (l : list T) (x : T) :
  NoDup l -> ~ In x l -> NoDup (l ++ [x]).
Proof.
  induction l as [|y l IH]; intros U N; cbn.
  - constructor; [intros []|constructor].
  - inversion U as [|? ? Ny Ul]; subst. constructor.
    + intros I. apply in_app_or in I as [I|[<-|[]]].
      * exact (Ny I).
      * apply N. left. reflexivity.
    + apply IH; [exact Ul|]. intros I. apply N. right. exact I.
Qed.

Lemma violated_tokenId doc docs :
  violated NftAsset.indexes doc docs = None ->
  ~ In (Asset.tokenId doc) (map Asset.tokenId docs).
Proof.
  unfold NftAsset.indexes. cbn [violated].
  destruct (existsb _ docs); [discriminate|].
  destruct (existsb _ docs) eqn:E; [discriminate|]. intros _ I.
  apply in_map_iff in I as (b & Eb & Ib).
  assert (X : existsb (fun b => String.eqb (Asset.tokenId doc) (Asset.tokenId b)) docs = true).
  { apply existsb_exists. exists b. split; [exact Ib|]. apply String.eqb_eq. auto. }
  rewrite X in E. discriminate E.
Qed.

Lemma annotated_assets w u p e db : assets (annotated w u p e db) = assets db.
Proof. unfold annotated. destruct (annotation_failure w); reflexivity. Qed.

(** One call keeps the token identifiers apart. *)
Lemma call_uniqueTokens `{Platform} (c : Call) (db : DB) :
  uniqueTokens db -> uniqueTokens (snd (call c db)).
Proof.
  intros U. unfold call.
  destruct (find (receiptOf (user c) (idempotencyKey (request c))) (receipts db))
    as [r|] eqn:G.
  - rewrite (executeMintFlow_hit _ _ _ _ _ G). exact U.
  - destruct (executeMintFlow _ _ _ _) as [[r|e] st] eqn:E.
    + apply (executeMintFlow_returns _ _ _ _ _ _ G) in E
        as (w0 & m & img & _ & _ & _ & V & _ & ->).
      unfold uniqueTokens. cbn [snd committed atRest minted assets].
      rewrite map_app. apply NoDup_snoc; [exact U|].
      apply violated_tokenId, V.
    + apply (executeMintFlow_throws _ _ _ _ _ _ G) in E as ->.
      unfold uniqueTokens. cbn [snd committed atRest].
      rewrite annotated_assets. exact U.
Qed.

Lemma callAll_uniqueTokens `{Platform} (cs : list Call) :
  forall db, uniqueTokens db -> uniqueTokens (callAll cs db).
Proof.
  induction cs as [|c cs IH]; intros db U; cbn [callAll].
  - exact U.
  - apply IH, call_uniqueTokens, U.
Qed.

(** C7. Token uniqueness: from a database whose assets have pairwise
    different [tokenId]s (the empty one, for instance), after any sequence
    of calls of [executeMintFlow], with any worlds, users and payloads, any
    two distinct asset documents have different [tokenId]s. *)
Theorem tokenId_unique `{Platform} (cs : list Call) (db : DB) :
  uniqueTokens db ->
  forall i j a b,
    nth_error (assets (callAll cs db)) i = Some a ->
    nth_error (assets (callAll cs db)) j = Some b ->
    i <> j ->
    Asset.tokenId a <> Asset.tokenId b.
Proof.
  intros U i j a b Ei Ej N E. apply N.
  apply (callAll_uniqueTokens cs) in U. unfold uniqueTokens in U.
  rewrite NoDup_nth_error in U. apply U.
  - rewrite length_map. apply nth_error_Some. rewrite Ei. discriminate.
  - rewrite !nth_error_map, Ei, Ej. cbn. rewrite E. reflexivity.
Qed.

Lemma tokenId_unique_witness :
  uniqueTokens (Sample.funded 100) /\
  forall a b,
    nth_error (assets (@callAll Sample.bare Scenario.twice (Sample.funded 100))) 0 = Some a ->
    nth_error (assets (@callAll Sample.bare Scenario.twice (Sample.funded 100))) 1 = Some b ->
    Asset.tokenId a <> Asset.tokenId b.
Proof.
  split; [constructor|]. intros a b Ea Eb.
  apply (@tokenId_unique Sample.bare Scenario.twice (Sample.funded 100)
           (NoDup_nil _) 0%nat 1%nat a b Ea Eb).
  discriminate.
Defined.

(** * Image retrieval *)

Lemma serveAssetImage_run t st :
  serveAssetImage t st =
  (match find (hasToken t) (assets (committed st)) with
   | None => Throw notFound
   | Some a =>
       match Asset.imageData a with
       | None => Throw notFound
       | Some bytes => Normal (png bytes)
       end
   end, st).
Proof.
  unfold serveAssetImage. rewrite bind_run. unfold NftAsset.findOne.
  cbn [view]. fold (hasToken t).
  destruct (find _ _) as [a|]; [destruct (Asset.imageData a)|]; reflexivity.
Qed.

Lemma find_absent t l :
  (forall a, In a l -> Asset.tokenId a <> t) -> find (hasToken t) l = None.
Proof.
  intros N. destruct (find _ l) as [a|] eqn:E; [|reflexivity].
  apply find_some in E as [I E]. apply String.eqb_eq in E. destruct (N a I E).
Qed.

Lemma find_unique t l a :
  NoDup (map Asset.tokenId l) -> In a l -> Asset.tokenId a = t ->
  find (hasToken t) l = Some a.
Proof.
  induction l as [|b l IH]; intros U I E; [destruct I|].
  cbn [map] in U. inversion U as [|? ? Nb Ul]; subst. cbn [find].
  destruct I as [->|I].
  - unfold hasToken at 1. rewrite String.eqb_refl. reflexivity.
  - destruct (hasToken (Asset.tokenId a) b) eqn:Eb.
    + apply String.eqb_eq in Eb. destruct Nb. rewrite Eb.
      apply in_map, I.
    + apply IH; auto.
Qed.

(** C8, as the claim has it, fails: an asset with the [tokenId] exists and
    the call throws. *)
Lemma image_of_every_asset_fails :
  ~ (forall st t a,
       In a (assets (committed st)) -> Asset.tokenId a = t ->
       exists bytes, fst (serveAssetImage t st) = Normal (png bytes)).
Proof.
  intros C.
  destruct (C (atRest Scenario.withDraft) "TOK-DRAFT" Scenario.draft) as [bytes E].
  - left. reflexivity.
  - reflexivity.
  - discriminate E.
Qed.

(** C8, amended. For every [tokenId], [serveAssetImage] returns the stored
    image bytes with mimeType "image/png" when an NftAsset with that
    [tokenId] exists and carries image data, and fails with ASSET_NOT_FOUND
    when no such asset exists; it leaves the store as it was. *)
Theorem serveAssetImage_contract (st : Store) (t : string) :
  uniqueTokens (committed st) ->
  (forall a bytes,
     In a (assets (committed st)) -> Asset.tokenId a = t ->
     Asset.imageData a = Some bytes ->
     fst (serveAssetImage t st) = Normal (png bytes)) /\
  ((forall a, In a (assets (committed st)) -> Asset.tokenId a <> t) ->
   fst (serveAssetImage t st) = Throw notFound) /\
  snd (serveAssetImage t st) = st.
Proof.
  intros U. rewrite serveAssetImage_run. cbn [fst snd]. repeat split.
  - intros a bytes I E D. rewrite (find_unique _ _ _ U I E), D. reflexivity.
  - intros N. rewrite (find_absent _ _ N). reflexivity.
Qed.

Lemma serveAssetImage_contract_witness :
  fst (serveAssetImage "TOK-1730000000500-417"
         (snd (@executeMintFlow Sample.indexed (Sample.world 0 (Resolved Sample.image))
                 Sample.alice Sample.payload (atRest (Sample.funded 100)))))
  = Normal (png (Sample.decode "iVBORw0KGgo=")).
Proof.
  refine (proj1 (serveAssetImage_contract _ _ _) _ _ _ _ _).
  - unfold uniqueTokens. cbn. constructor; [intros []|constructor].
  - left. reflexivity.
  - reflexivity.
  - reflexivity.
Defined.

(** C9. [serveAssetImage] fails with ASSET_NOT_FOUND when no asset has the
    [tokenId], and also when the asset exists and its [imageData] is
    absent; it succeeds if and only if an asset with that [tokenId] exists
    and carries image bytes. *)
Theorem serveAssetImage_succeeds_iff (st : Store) (t : string) :
  uniqueTokens (committed st) ->
  ((forall a, In a (assets (committed st)) -> Asset.tokenId a <> t) ->
   fst (serveAssetImage t st) = Throw notFound) /\
  (forall a,
     In a (assets (committed st)) -> Asset.tokenId a = t ->
     Asset.imageData a = None ->
     fst (serveAssetImage t st) = Throw notFound) /\
  ((exists img, fst (serveAssetImage t st) = Normal img) <->
   (exists a bytes,
      In a (assets (committed st)) /\ Asset.tokenId a = t /\
      Asset.imageData a = Some bytes)).
Proof.
  intros U. rewrite serveAssetImage_run. cbn [fst]. repeat split.
  - intros N. rewrite (find_absent _ _ N). reflexivity.
  - intros a I E D. rewrite (find_unique _ _ _ U I E), D. reflexivity.
  - intros [img E].
    destruct (find _ _) as [a|] eqn:F; [|discriminate E].
    destruct (Asset.imageData a) as [bytes|] eqn:D; [|discriminate E].
    apply find_some in F as [I F]. apply String.eqb_eq in F.
    exists a, bytes. auto.
  - intros (a & bytes & I & E & D).
    rewrite (find_unique _ _ _ U I E), D. eexists. reflexivity.
Qed.

Lemma serveAssetImage_succeeds_iff_witness :
  fst (serveAssetImage "TOK-DRAFT" (atRest Scenario.withDraft)) = Throw notFound.
Proof.
  refine (proj1 (proj2 (serveAssetImage_succeeds_iff _ _ _)) Scenario.draft _ _ _).
  - unfold uniqueTokens. cbn. constructor; [intros []|constructor].
  - left. reflexivity.
  - reflexivity.
  - reflexivity.
Defined.

(** * Mint, then fetch *)

Lemma find_last {T} (f : T -> bool) (l : list T) (a : T) :
  (forall x, In x l -> f x = false) -> f a = true -> find f (l ++ [a]) = Some a.
Proof.
  induction l as [|b l IH]; intros N E; cbn.
  - rewrite E. reflexivity.
  - rewrite (N b (or_introl eq_refl)). apply IH; [|exact E].
    intros x I. apply N. right. exact I.
Qed.

(** C10. For every [executeMintFlow] that runs the saga and succeeds, the
    returned receipt has the [tokenId], [metadataUri] and [imageUri] of the
    asset document persisted by the same transaction, its [imageUri] is
    "/api/assets/" + tokenId + ".png", and [serveAssetImage] of that
    [tokenId] on the resulting store returns the bytes stored with the
    asset: the decoding of the image the provider sent. *)
Theorem mint_then_fetch `{Platform} (w : World) (u : string) (p : Payload) (db : DB)
    (r : Receipt.t) (st : Store) :
  find (receiptOf u (idempotencyKey p)) (receipts db) = None ->
  executeMintFlow w u p (atRest db) = (Normal r, st) ->
  exists a m img,
    assets (committed st) = (assets db ++ [a])%list /\
    meta p = Some m /\
    usableImage (generateContent w (generationParameters m)) = Some img /\
    Asset.imageData a = Some (Buffer_from_base64 img) /\
    Receipt.tokenId r = Asset.tokenId a /\
    Receipt.metadataUri r = Asset.metadataUri a /\
    Receipt.imageUri r = Asset.imageUri a /\
    Receipt.imageUri r = "/api/assets/" ++ Receipt.tokenId r ++ ".png" /\
    serveAssetImage (Receipt.tokenId r) st = (Normal (png (Buffer_from_base64 img)), st).
Proof.
  intros G E.
  apply (executeMintFlow_returns _ _ _ _ _ _ G) in E
    as (w0 & m & img & _ & Em & Ei & V & -> & ->).
  exists (assetDoc w u p img), m, img.
  repeat split; try reflexivity; try assumption.
  rewrite serveAssetImage_run. cbn [committed atRest minted assets].
  rewrite find_last with (a := assetDoc w u p img).
  - reflexivity.
  - intros x I. apply violated_tokenId in V.
    destruct (hasToken _ x) eqn:F; [|reflexivity].
    apply String.eqb_eq in F. destruct V.
    apply in_map_iff. exists x. split; [exact F | exact I].
  - apply String.eqb_refl.
Qed.

Lemma mint_then_fetch_witness :
  exists a m img,
    assets (committed (snd (@executeMintFlow Sample.indexed
       (Sample.world 0 (Resolved Sample.image)) Sample.alice Sample.payload
       (atRest (Sample.funded 100))))) = ([] ++ [a])%list /\
    meta Sample.payload = Some m /\
    usableImage (Resolved Sample.image) = Some img /\
    Asset.imageData a = Some (Sample.decode img) /\
    "TOK-1730000000500-417" = Asset.tokenId a /\
    "dpal://metadata/TOK-1730000000500-417" = Asset.metadataUri a /\
    "/api/assets/TOK-1730000000500-417.png" = Asset.imageUri a /\
    "/api/assets/TOK-1730000000500-417.png" = "/api/assets/" ++ "TOK-1730000000500-417" ++ ".png" /\
    serveAssetImage "TOK-1730000000500-417"
      (snd (@executeMintFlow Sample.indexed
         (Sample.world 0 (Resolved Sample.image)) Sample.alice Sample.payload
         (atRest (Sample.funded 100))))
    = (Normal (png (Sample.decode img)),
       snd (@executeMintFlow Sample.indexed
         (Sample.world 0 (Resolved Sample.image)) Sample.alice Sample.payload
         (atRest (Sample.funded 100)))).
Proof.
  exact (@mint_then_fetch Sample.indexed (Sample.world 0 (Resolved Sample.image))
           Sample.alice Sample.payload (Sample.funded 100) _ _ eq_refl eq_refl).
Defined.

(** * Conservation *)

Lemma canPay_ofUser u price d : canPay u price d = true -> ofUser u d = true.
Proof. unfold canPay, ofUser. intros E. apply andb_true_iff in E as [E _]. exact E. Qed.

(** With one wallet a user, the lock and the settlement update the same
    document. *)
Lemma lock_then_settle u price now l w0 :
  NoDup (map Wallet.userId l) ->
  find (canPay u price) l = Some w0 ->
  find (ofUser u) l = Some w0 /\
  find (ofUser u)
    (updateFirst (ofUser u) (settleUpdate price)
       (updateFirst (canPay u price) (lockUpdate price now) l))
  = Some (settleUpdate price (lockUpdate price now w0)).
Proof.
  induction l as [|d l IH]; intros U F; [discriminate F|].
  cbn [map] in U. inversion U as [|? ? Nd Ul]; subst.
  cbn [find updateFirst] in *. destruct (canPay u price d) eqn:C.
  - injection F as <-. pose proof (canPay_ofUser _ _ _ C) as O.
    rewrite O. split; [reflexivity|].
    cbn [updateFirst]. change (ofUser u (lockUpdate price now d)) with (ofUser u d).
    rewrite O. cbn [find].
    change (ofUser u (settleUpdate price (lockUpdate price now d))) with (ofUser u d).
    rewrite O. reflexivity.
  - destruct (ofUser u d) eqn:O.
    + apply find_some in F as [I F]. apply canPay_ofUser in F.
      unfold ofUser in O, F. apply String.eqb_eq in O, F.
      destruct Nd. rewrite O, <- F. apply in_map, I.
    + cbn [updateFirst find]. rewrite O. cbn [find]. rewrite O. apply IH; assumption.
Qed.

Lemma double_safe z : safe z -> double z = z.
Proof.
  unfold safe, double. intros S. destruct (Z.leb_spec (Z.abs z) limit); [reflexivity|lia].
Qed.

Lemma nearest_nonneg a : 0 <= a -> 0 <= nearest a.
Proof.
  intros A. unfold nearest. destruct (binary_normalize 53 1024 a 0 false); try exact A.
  apply Z.shiftl_nonneg. lia.
Qed.

Lemma double_nonneg z : 0 <= z -> 0 <= double z.
Proof.
  intros N. unfold double. destruct (Z.abs z <=? limit); [exact N|].
  apply Z.mul_nonneg_nonneg; [apply Z.sgn_nonneg, N | apply nearest_nonneg, Z.abs_nonneg].
Qed.

(** Where the doubles thin out, a sum is rounded to the nearest of them,
    ties to the even one. *)
Example double_rounds :
  double (limit + 1) = limit /\ double (limit + 3) = limit + 4 /\
  double (- (limit + 1)) = - limit /\ double (limit + 2) = limit + 2.
Proof. repeat split; vm_compute; reflexivity. Qed.

(** C3, as the claim has it, fails where the doubles thin out: with a
    balance of 2^53 + 2 and a price of 1 the lock leaves 2^53, the double
    nearest to 2^53 + 1. *)
Lemma conservation_fails_beyond_2_53 :
  ~ (forall (P : Platform) w u p db r st,
       uniqueWallets db ->
       find (receiptOf u (idempotencyKey p)) (receipts db) = None ->
       executeMintFlow w u p (atRest db) = (Normal r, st) ->
       exists before after,
         find (ofUser u) (wallets db) = Some before /\
         find (ofUser u) (wallets (committed st)) = Some after /\
         Wallet.balance before = Wallet.balance after + priceCredits p).
Proof.
  intros C.
  assert (U : uniqueWallets Edge.brimful).
  { unfold uniqueWallets. cbn. constructor; [intros []|constructor]. }
  destruct (C Sample.indexed (Sample.world 0 (Resolved Sample.image)) Sample.alice
              Edge.oneCredit Edge.brimful
              (receiptDoc (Sample.world 0 (Resolved Sample.image)) Sample.alice Edge.oneCredit)
              (snd (@executeMintFlow Sample.indexed
                      (Sample.world 0 (Resolved Sample.image)) Sample.alice Edge.oneCredit
                      (atRest Edge.brimful)))
              U eq_refl eq_refl)
    as (before & after & B & A & E).
  vm_compute in B, A. injection B as <-. injection A as <-.
  vm_compute in E. discriminate E.
Qed.

(** C3, amended. Conservation, for integer amounts in the range where the
    doubles are exact: for every [executeMintFlow] that runs the saga and
    succeeds, on a database with one wallet a user whose
    [balance - priceCredits], [lockedBalance + priceCredits] and
    [lockedBalance] are within 2^53 in magnitude, the user's wallet ends
    with [balance_before = balance_after + priceCredits] and the
    [lockedBalance] it had (the lock moved [priceCredits] from [balance] to
    [lockedBalance], the settlement took them off [lockedBalance]), and
    exactly two ledger entries are added: a lock entry with key "lock-" +
    idempotencyKey and a spend entry with key "spend-" + idempotencyKey. *)
Theorem mint_conserves `{Platform} (w : World) (u : string) (p : Payload) (db : DB)
    (r : Receipt.t) (st : Store) :
  uniqueWallets db ->
  (forall d, In d (wallets db) -> Wallet.userId d = u ->
     safe (Wallet.balance d - priceCredits p) /\
     safe (Wallet.lockedBalance d + priceCredits p) /\
     safe (Wallet.lockedBalance d)) ->
  find (receiptOf u (idempotencyKey p)) (receipts db) = None ->
  executeMintFlow w u p (atRest db) = (Normal r, st) ->
  exists before after lock spend,
    find (ofUser u) (wallets db) = Some before /\
    find (ofUser u) (wallets (committed st)) = Some after /\
    after = settleUpdate (priceCredits p) (lockUpdate (priceCredits p) (new_Date w) before) /\
    Wallet.balance before = Wallet.balance after + priceCredits p /\
    Wallet.lockedBalance after = Wallet.lockedBalance before /\
    ledger (committed st) = (ledger db ++ [lock; spend])%list /\
    Ledger.type lock = "CREDIT_LOCK" /\
    Ledger.idempotencyKey lock = "lock-" ++ idempotencyKey p /\
    Ledger.amount lock = priceCredits p /\
    Ledger.type spend = "CREDIT_SPEND" /\
    Ledger.idempotencyKey spend = "spend-" ++ idempotencyKey p /\
    Ledger.amount spend = priceCredits p.
Proof.
  intros U S G E.
  apply (executeMintFlow_returns _ _ _ _ _ _ G) in E
    as (w0 & m & img & F & _ & _ & _ & _ & ->).
  destruct (lock_then_settle u (priceCredits p) (new_Date w) _ _ U F) as [B A].
  assert (S0 : safe (Wallet.balance w0 - priceCredits p) /\
               safe (Wallet.lockedBalance w0 + priceCredits p) /\
               safe (Wallet.lockedBalance w0)).
  { pose proof (find_some _ _ F) as [I C]. apply canPay_ofUser in C.
    apply S; [exact I|]. apply String.eqb_eq, C. }
  destruct S0 as (S1 & S2 & S3).
  exists w0, (settleUpdate (priceCredits p) (lockUpdate (priceCredits p) (new_Date w) w0)),
    (lockEntry w u p), (spendEntry w u p).
  cbn [committed atRest minted wallets ledger].
  repeat split; try reflexivity; try assumption.
  - cbn [settleUpdate lockUpdate Wallet.balance]. unfold inc.
    rewrite double_safe; [lia|].
    replace (Wallet.balance w0 + - priceCredits p)
      with (Wallet.balance w0 - priceCredits p) by lia. exact S1.
  - cbn [settleUpdate lockUpdate Wallet.lockedBalance]. unfold inc.
    rewrite (double_safe _ S2).
    replace (Wallet.lockedBalance w0 + priceCredits p + - priceCredits p)
      with (Wallet.lockedBalance w0) by lia.
    apply double_safe, S3.
Qed.

Lemma mint_conserves_witness :
  exists before after lock spend,
    find (ofUser Sample.alice) (wallets (Sample.funded 100)) = Some before /\
    find (ofUser Sample.alice)
      (wallets (committed (snd (@executeMintFlow Sample.indexed
         (Sample.world 0 (Resolved Sample.image)) Sample.alice Sample.payload
         (atRest (Sample.funded 100)))))) = Some after /\
    after = settleUpdate 30 (lockUpdate 30 1730000000000 before) /\
    Wallet.balance before = Wallet.balance after + 30 /\
    Wallet.lockedBalance after = Wallet.lockedBalance before /\
    ledger (committed (snd (@executeMintFlow Sample.indexed
         (Sample.world 0 (Resolved Sample.image)) Sample.alice Sample.payload
         (atRest (Sample.funded 100))))) = ([] ++ [lock; spend])%list /\
    Ledger.type lock = "CREDIT_LOCK" /\
    Ledger.idempotencyKey lock = "lock-" ++ "key-1" /\
    Ledger.amount lock = 30 /\
    Ledger.type spend = "CREDIT_SPEND" /\
    Ledger.idempotencyKey spend = "spend-" ++ "key-1" /\
    Ledger.amount spend = 30.
Proof.
  refine (@mint_conserves Sample.indexed (Sample.world 0 (Resolved Sample.image))
            Sample.alice Sample.payload (Sample.funded 100) _ _ _ _ eq_refl eq_refl).
  - unfold uniqueWallets. cbn. constructor; [intros []|constructor].
  - intros d [<-|[]] _. unfold safe, limit. cbn. lia.
Defined.

(** * Failure *)

Lemma updateFirst_none {T} (f : T -> bool) (g : T -> T) (l : list T) :
  (forall x, In x l -> f x = false) -> updateFirst f g l = l.
Proof.
  induction l as [|d l IH]; intros N; cbn; [reflexivity|].
  rewrite (N d (or_introl eq_refl)). f_equal. apply IH.
  intros x I. apply N. right. exact I.
Qed.

Lemma updateFirst_ids f s e l :
  map Request._id (updateFirst f (setStatus s e) l) = map Request._id l.
Proof.
  induction l as [|d l IH]; cbn; [reflexivity|].
  destruct (f d); cbn; [reflexivity|]. f_equal. exact IH.
Qed.

(** The annotation touches the status and the error of a request that was
    there, and nothing else. *)
Lemma annotated_rest w u p e db :
  wallets (annotated w u p e db) = wallets db /\
  ledger (annotated w u p e db) = ledger db /\
  assets (annotated w u p e db) = assets db /\
  receipts (annotated w u p e db) = receipts db /\
  audits (annotated w u p e db) = audits db /\
  map Request._id (requests (annotated w u p e db)) = map Request._id (requests db).
Proof.
  unfold annotated. destruct (annotation_failure w); cbn; repeat split; try reflexivity.
  apply updateFirst_ids.
Qed.

(** Whatever [executeMintFlow] throws, nothing of the transaction is in
    the database. *)
Lemma failure_is_atomic `{Platform} w u p db e st :
  find (receiptOf u (idempotencyKey p)) (receipts db) = None ->
  executeMintFlow w u p (atRest db) = (Throw e, st) ->
  wallets (committed st) = wallets db /\
  ledger (committed st) = ledger db /\
  assets (committed st) = assets db /\
  receipts (committed st) = receipts db /\
  audits (committed st) = audits db /\
  map Request._id (requests (committed st)) = map Request._id (requests db).
Proof.
  intros G E. apply (executeMintFlow_throws _ _ _ _ _ _ G) in E as ->.
  apply annotated_rest.
Qed.

Lemma no_wallet_can_pay u price l :
  (forall d, In d l -> Wallet.userId d = u -> Wallet.balance d < price) ->
  forall d, In d l -> canPay u price d = false.
Proof.
  intros N d I. unfold canPay. destruct (String.eqb_spec (Wallet.userId d) u) as [E|E].
  - cbn. apply Z.leb_gt. apply N; assumption.
  - reflexivity.
Qed.

Lemma set_wallets_same db : set_wallets (wallets db) db = db.
Proof. destruct db. reflexivity. Qed.

(** C4. Insufficient funds: when every wallet of the user holds less than
    [priceCredits] and the saga runs, the lock step writes nothing, and
    [executeMintFlow] fails with INSUFFICIENT_CREDITS; the wallets are as
    they were and no request, asset, receipt (nor ledger entry nor audit
    event) is created. *)
Theorem insufficient_funds `{Platform} (w : World) (u : string) (p : Payload) (db : DB) :
  find (receiptOf u (idempotencyKey p)) (receipts db) = None ->
  (forall d, In d (wallets db) -> Wallet.userId d = u ->
             Wallet.balance d < priceCredits p) ->
  CreditWallet.findOneAndUpdate (canPay u (priceCredits p))
    (lockUpdate (priceCredits p) (new_Date w)) withSession (mkStore db (Some db))
  = (Normal None, mkStore db (Some db)) /\
  exists st,
    executeMintFlow w u p (atRest db) = (Throw (Error "INSUFFICIENT_CREDITS"), st) /\
    wallets (committed st) = wallets db /\
    ledger (committed st) = ledger db /\
    assets (committed st) = assets db /\
    receipts (committed st) = receipts db /\
    audits (committed st) = audits db /\
    map Request._id (requests (committed st)) = map Request._id (requests db).
Proof.
  intros G N. pose proof (no_wallet_can_pay _ _ _ N) as C.
  assert (F : find (canPay u (priceCredits p)) (wallets db) = None).
  { destruct (find (canPay u (priceCredits p)) (wallets db)) as [d|] eqn:F;
      [|reflexivity].
    apply find_some in F as [I F]. rewrite (C d I) in F. discriminate F. }
  split.
  - rewrite findOneAndUpdate_open, F, (updateFirst_none _ _ _ C), set_wallets_same.
    reflexivity.
  - assert (S : exists st', mintSteps w u p (mkStore db (Some db))
                            = (Throw (Error "INSUFFICIENT_CREDITS"), st')).
    { unfold mintSteps. rewrite bind_run, findOneAndUpdate_open, F.
      eexists. reflexivity. }
    destruct S as [st' S].
    pose proof (executeMintFlow_miss w u p db G) as E. rewrite S in E.
    eexists. split; [exact E|].
    apply (failure_is_atomic w u p db _ _ G E).
Qed.

Lemma insufficient_funds_witness :
  exists st,
    @executeMintFlow Sample.indexed (Sample.world 0 (Resolved Sample.image))
      Sample.alice Sample.payload (atRest (Sample.funded 10))
    = (Throw (Error "INSUFFICIENT_CREDITS"), st) /\
    wallets (committed st) = [Sample.wallet 10] /\
    ledger (committed st) = [] /\
    assets (committed st) = [] /\
    receipts (committed st) = [] /\
    audits (committed st) = [] /\
    map Request._id (requests (committed st)) = [].
Proof.
  refine (proj2 (@insufficient_funds Sample.indexed
            (Sample.world 0 (Resolved Sample.image)) Sample.alice Sample.payload
            (Sample.funded 10) eq_refl _)).
  intros d [<-|[]] _. cbn. lia.
Defined.

(** C2. Atomicity on failure: when the saga runs and the provider gives no
    usable image, [executeMintFlow] throws, and the wallets (so every
    [balance] and [lockedBalance]), the ledger, the assets, the receipts
    and the audit events are what they were before the call; no request
    document is added either. *)
Theorem generation_failure_is_atomic `{Platform} (w : World) (u : string) (p : Payload)
    (db : DB) :
  find (receiptOf u (idempotencyKey p)) (receipts db) = None ->
  (forall m, meta p = Some m ->
             usableImage (generateContent w (generationParameters m)) = None) ->
  exists e st,
    executeMintFlow w u p (atRest db) = (Throw e, st) /\
    wallets (committed st) = wallets db /\
    ledger (committed st) = ledger db /\
    assets (committed st) = assets db /\
    receipts (committed st) = receipts db /\
    audits (committed st) = audits db /\
    map Request._id (requests (committed st)) = map Request._id (requests db).
Proof.
  intros G N. destruct (executeMintFlow w u p (atRest db)) as [[r|e] st] eqn:E.
  - apply (executeMintFlow_returns _ _ _ _ _ _ G) in E
      as (w0 & m & img & _ & Em & Ei & _).
    rewrite (N m Em) in Ei. discriminate Ei.
  - exists e, st. split; [reflexivity|].
    exact (failure_is_atomic w u p db e st G E).
Qed.

Lemma generation_failure_is_atomic_witness :
  exists e st,
    @executeMintFlow Sample.indexed (Sample.world 0 (Resolved Sample.noImage))
      Sample.alice Sample.payload (atRest (Sample.funded 100)) = (Throw e, st) /\
    wallets (committed st) = [Sample.wallet 100] /\
    ledger (committed st) = [] /\
    assets (committed st) = [] /\
    receipts (committed st) = [] /\
    audits (committed st) = [] /\
    map Request._id (requests (committed st)) = [].
Proof.
  refine (@generation_failure_is_atomic Sample.indexed
            (Sample.world 0 (Resolved Sample.noImage)) Sample.alice Sample.payload
            (Sample.funded 100) eq_refl _).
  intros m _. reflexivity.
Defined.

(** * The error of a failed generation *)

Lemma partsOf_TypeError response e : partsOf response = Throw e -> name e = "TypeError".
Proof.
  unfold partsOf. destruct (candidates response) as [[|c cs]|].
  - intros E. injection E as <-. reflexivity.
  - destruct (content c) as [k|].
    + destruct (parts k); intros E; [discriminate E|]. injection E as <-. reflexivity.
    + intros E. injection E as <-. reflexivity.
  - intros E. injection E as <-. reflexivity.
Qed.

(** What the steps throw when funds are locked, the request recorded, and
    the provider gives no usable image. *)
Lemma mintSteps_generation_failure `{Platform} w u p c t w0 m :
  find (canPay u (priceCredits p)) (wallets t) = Some w0 ->
  violated CreditLedger.indexes (lockEntry w u p) (ledger t) = None ->
  violated MintRequest.indexes (requestDoc w u p) (requests t) = None ->
  meta p = Some m ->
  usableImage (generateContent w (generationParameters m)) = None ->
  fst (mintSteps w u p (mkStore c (Some t))) =
  Throw (match generateContent w (generationParameters m) with
         | Rejected reason => reason
         | Resolved response =>
             match partsOf response with
             | Throw e => e
             | Normal _ => generationFailed
             end
         end).
Proof.
  intros F VL VR Em U. unfold mintSteps.
  rewrite bind_run, findOneAndUpdate_open, F. cbn [option_map].
  rewrite bind_run, ledger_create_open. unfold insertOne at 1.
  cbn [ledger set_wallets]. fold (lockEntry w u p). rewrite VL.
  rewrite bind_run, request_create_open. unfold insertOne at 1.
  cbn [requests set_ledger set_wallets]. fold (requestDoc w u p). rewrite VR.
  rewrite Em, bind_run. fold (generationParameters m).
  unfold usableImage in U.
  destruct (generateContent w (generationParameters m)) as [response|reason].
  - cbn [await ret]. rewrite bind_run. unfold complete.
    destruct (partsOf response) as [ps|e]; [|reflexivity].
    rewrite U. reflexivity.
  - reflexivity.
Qed.




(** X24. A response that lacks the candidates, the content or the parts
    makes the property read throw a TypeError, which is what the caller
    gets. *)
Lemma malformed_response_error `{Platform} w u p db w0 m response e :
  find (receiptOf u (idempotencyKey p)) (receipts db) = None ->
  find (canPay u (priceCredits p)) (wallets db) = Some w0 ->
  violated CreditLedger.indexes (lockEntry w u p) (ledger db) = None ->
  violated MintRequest.indexes (requestDoc w u p) (requests db) = None ->
  meta p = Some m ->
  generateContent w (generationParameters m) = Resolved response ->
  partsOf response = Throw e ->
  fst (executeMintFlow w u p (atRest db)) = Throw e /\ name e = "TypeError".
Proof.
  intros G F VL VR Em Eg Ep.
  assert (U : usableImage (generateContent w (generationParameters m)) = None).
  { unfold usableImage. rewrite Eg, Ep. reflexivity. }
  pose proof (mintSteps_generation_failure w u p db db w0 m F VL VR Em U) as S.
  rewrite Eg, Ep in S. rewrite (executeMintFlow_miss w u p db G).
  destruct (mintSteps w u p _) as [[r|e'] st]; [discriminate S|].
  cbn [fst] in *. split; [exact S | exact (partsOf_TypeError _ _ Ep)].
Qed.

(** * The failure annotation *)

Lemma set_requests_same db : set_requests (requests db) db = db.
Proof. destruct db. reflexivity. Qed.

(** X23. A failed mint on a database without a request of the pair leaves
    the database as it was: the request of the saga went with the
    transaction, and the annotation finds no document. *)
Lemma failed_mint_leaves_no_request `{Platform} w u p db e st :
  find (receiptOf u (idempotencyKey p)) (receipts db) = None ->
  (forall r, In r (requests db) -> requestOf u (idempotencyKey p) r = false) ->
  executeMintFlow w u p (atRest db) = (Throw e, st) ->
  st = atRest db.
Proof.
  intros G N E. apply (executeMintFlow_throws _ _ _ _ _ _ G) in E as ->.
  unfold annotated. destruct (annotation_failure w); [reflexivity|].
  rewrite (updateFirst_none _ _ _ N), set_requests_same. reflexivity.
Qed.

(** X22. A failure of the annotation does not change what the caller gets:
    the same receipt, or the same error. *)
Lemma secondary_failure_is_swallowed `{Platform} w u p db x :
  fst (executeMintFlow (failingAnnotation x w) u p (atRest db)) =
  fst (executeMintFlow w u p (atRest db)).
Proof.
  destruct (find (receiptOf u (idempotencyKey p)) (receipts db)) as [r|] eqn:G.
  - rewrite !(executeMintFlow_hit _ _ _ _ _ G). reflexivity.
  - rewrite !(executeMintFlow_miss _ _ _ _ G).
    change (mintSteps (failingAnnotation x w) u p) with (mintSteps w u p).
    destruct (mintSteps w u p _) as [[r|e] st]; reflexivity.
Qed.

(** C5. Scenario C of the spec (balance 100, price 30, the provider sends
    no image): the call throws IMAGE_GENERATION_FAILED and the database is
    the one before the call; it holds no request of the pair, so none with
    status FAILED. *)
Theorem failed_mint_is_not_annotated :
  @executeMintFlow Sample.indexed (Sample.world 0 (Resolved Sample.noImage))
    Sample.alice Sample.payload (atRest (Sample.funded 100))
  = (Throw generationFailed, atRest (Sample.funded 100)) /\
  find (requestOf Sample.alice "key-1") (requests (Sample.funded 100)) = None.
Proof. split; reflexivity. Qed.

(** * Idempotency *)

Lemma find_app_none {T} (f : T -> bool) (l : list T) (a : T) :
  find f l = None -> f a = false -> find f (l ++ [a]) = None.
Proof.
  induction l as [|b l IH]; cbn; intros N E.
  - rewrite E. reflexivity.
  - destruct (f b); [discriminate N|]. apply IH; assumption.
Qed.

(** X12. The receipt that a mint stores has no [idempotencyKey], so the gate
    does not find it: after a mint that went through, the lookup of the
    same pair still finds nothing. *)
Lemma own_receipt_is_not_found `{Platform} w u p db r st :
  find (receiptOf u (idempotencyKey p)) (receipts db) = None ->
  executeMintFlow w u p (atRest db) = (Normal r, st) ->
  Receipt.idempotencyKey r = None /\
  find (receiptOf u (idempotencyKey p)) (receipts (committed st)) = None.
Proof.
  intros G E.
  apply (executeMintFlow_returns _ _ _ _ _ _ G) in E
    as (w0 & m & img & _ & _ & _ & _ & -> & ->).
  split; [reflexivity|]. cbn [committed atRest minted receipts].
  apply find_app_none; [exact G|].
  unfold receiptOf. cbn. apply andb_false_r.
Qed.

(** C1. The same call of [executeMintFlow] a second time, after the first
    succeeded (balance 100, price 30): the gate misses and the saga runs
    again.  With the unique keys of the spec the second call throws a
    duplicate key error and marks the request of the completed mint FAILED;
    without them it debits the wallet a second time and stores a second
    asset and a second receipt. *)
Theorem retry_runs_the_saga_again :
  let first := @executeMintFlow Sample.indexed (Sample.world 0 (Resolved Sample.image))
                 Sample.alice Sample.payload (atRest (Sample.funded 100)) in
  let second := @executeMintFlow Sample.indexed (Sample.world 1 (Resolved Sample.image))
                  Sample.alice Sample.payload (snd first) in
  fst first = Normal (receiptDoc (Sample.world 0 (Resolved Sample.image))
                        Sample.alice Sample.payload) /\
  fst second = Throw (DuplicateKey "idempotencyKey_1") /\
  map Request.status (requests (committed (snd first))) = [Request.COMPLETED] /\
  map Request.status (requests (committed (snd second))) = [Request.FAILED] /\
  map Wallet.balance (wallets (@callAll Sample.bare Scenario.twice (Sample.funded 100)))
  = [40] /\
  length (receipts (@callAll Sample.bare Scenario.twice (Sample.funded 100))) = 2%nat /\
  length (assets (@callAll Sample.bare Scenario.twice (Sample.funded 100))) = 2%nat.
Proof. cbv zeta. repeat split; reflexivity. Qed.

(** * What a call does to the database *)

(** The three ways of a call: the gate hits; the saga fails; the saga goes
    through. *)
Lemma call_cases `{Platform} (c : Call) (db : DB) :
  (exists r,
     find (receiptOf (user c) (idempotencyKey (request c))) (receipts db) = Some r /\
     call c db = (Normal r, db)) \/
  (find (receiptOf (user c) (idempotencyKey (request c))) (receipts db) = None /\
   exists e,
     call c db = (Throw e, annotated (world c) (user c) (request c) e db)) \/
  (find (receiptOf (user c) (idempotencyKey (request c))) (receipts db) = None /\
   exists w0 img,
     find (canPay (user c) (priceCredits (request c))) (wallets db) = Some w0 /\
     violated NftAsset.indexes (assetDoc (world c) (user c) (request c) img) (assets db)
     = None /\
     call c db = (Normal (receiptDoc (world c) (user c) (request c)),
                  minted (world c) (user c) (request c) img db)).
Proof.
  unfold call.
  destruct (find (receiptOf (user c) (idempotencyKey (request c))) (receipts db))
    as [r|] eqn:G.
  - left. exists r. rewrite (executeMintFlow_hit _ _ _ _ _ G). auto.
  - right. destruct (executeMintFlow _ _ _ _) as [[r|e] st] eqn:E.
    + right. split; [reflexivity|].
      apply (executeMintFlow_returns _ _ _ _ _ _ G) in E
        as (w0 & m & img & F & _ & _ & V & -> & ->).
      exists w0, img. auto.
    + left. split; [reflexivity|].
      apply (executeMintFlow_throws _ _ _ _ _ _ G) in E as ->.
      exists e. reflexivity.
Qed.

(** A property that every call keeps holds after any sequence of calls. *)
Lemma callAll_keeps `{Platform} (I : DB -> Prop) :
  (forall c db, I db -> I (snd (call c db))) ->
  forall cs db, I db -> I (callAll cs db).
Proof.
  intros K cs. induction cs as [|c cs IH]; intros db B; cbn [callAll].
  - exact B.
  - apply IH, K, B.
Qed.

Lemma updateFirst_Forall {T} (P : T -> Prop) (f : T -> bool) (g : T -> T) (l : list T) :
  (forall d, f d = true -> P (g d)) -> Forall P l -> Forall P (updateFirst f g l).
Proof.
  intros G F. induction F as [|d l Pd F IH]; cbn; [constructor|].
  destruct (f d) eqn:E; constructor; auto.
Qed.

Lemma updateFirst_map {T U} (h : T -> U) (f : T -> bool) (g : T -> T) (l : list T) :
  (forall d, h (g d) = h d) -> map h (updateFirst f g l) = map h l.
Proof.
  intros G. induction l as [|d l IH]; cbn; [reflexivity|].
  destruct (f d); cbn; [rewrite G|rewrite IH]; reflexivity.
Qed.

Lemma updateFirst_filter {T} (h f : T -> bool) (g : T -> T) (l : list T) :
  (forall d, f d = true -> h d = false) -> (forall d, h (g d) = h d) ->
  filter h (updateFirst f g l) = filter h l.
Proof.
  intros N G. induction l as [|d l IH]; cbn; [reflexivity|].
  destruct (f d) eqn:E; cbn.
  - rewrite G, (N d E). reflexivity.
  - rewrite IH. reflexivity.
Qed.

Lemma updateFirst_find {T} (h f : T -> bool) (g : T -> T) (l : list T) :
  (forall d, f d = true -> h d = false) -> (forall d, h (g d) = h d) ->
  find h (updateFirst f g l) = find h l.
Proof.
  intros N G. induction l as [|d l IH]; cbn; [reflexivity|].
  destruct (f d) eqn:E; cbn.
  - rewrite G, (N d E). reflexivity.
  - rewrite IH. reflexivity.
Qed.

Lemma annotated_wallets w u p e db : wallets (annotated w u p e db) = wallets db.
Proof. apply annotated_rest. Qed.

Lemma annotated_ledger w u p e db : ledger (annotated w u p e db) = ledger db.
Proof. apply annotated_rest. Qed.

(** ** The wallets *)

(** X1. No call creates or removes a wallet or changes a wallet's owner,
    and the wallets of the other users are what they were. *)
Theorem other_wallets_untouched `{Platform} (c : Call) (db : DB) :
  map Wallet.userId (wallets (snd (call c db))) = map Wallet.userId (wallets db) /\
  filter (fun d => negb (ofUser (user c) d)) (wallets (snd (call c db)))
  = filter (fun d => negb (ofUser (user c) d)) (wallets db).
Proof.
  destruct (call_cases c db) as [(r & _ & ->)|[(_ & e & ->)|(_ & w0 & img & _ & _ & ->)]];
    cbn [snd].
  - split; reflexivity.
  - rewrite annotated_wallets. split; reflexivity.
  - cbn [minted wallets]. split.
    + rewrite !updateFirst_map; reflexivity.
    + rewrite !updateFirst_filter; try reflexivity;
        intros d E; try apply canPay_ofUser in E; cbn beta; rewrite E; reflexivity.
Qed.

Lemma call_balances `{Platform} (c : Call) (db : DB) :
  Forall (fun d => 0 <= Wallet.balance d) (wallets db) ->
  Forall (fun d => 0 <= Wallet.balance d) (wallets (snd (call c db))).
Proof.
  intros B.
  destruct (call_cases c db) as [(r & _ & ->)|[(_ & e & ->)|(_ & w0 & img & _ & _ & ->)]];
    cbn [snd].
  - exact B.
  - rewrite annotated_wallets. exact B.
  - cbn [minted wallets]. apply Forall_forall. intros d I.
    set (l1 := updateFirst (canPay _ _) _ _) in I.
    assert (B1 : Forall (fun d => 0 <= Wallet.balance d) l1).
    { subst l1. clear I. induction B as [|x l Px B IH]; cbn; [constructor|].
      destruct (canPay _ _ x) eqn:E; constructor; auto.
      unfold canPay in E. apply andb_true_iff in E as [_ E]. apply Z.leb_le in E.
      cbn [lockUpdate Wallet.balance]. apply double_nonneg. lia. }
    clearbody l1. revert d I. apply Forall_forall.
    induction B1 as [|x l Px B1 IH]; cbn; [constructor|].
    destruct (ofUser _ x); constructor; auto.
Qed.

(** X2. No overdraft: when no wallet has a negative [balance], none has
    one after any sequence of calls, whatever the prices (the guard
    [balance >= priceCredits] of the lock sees to it). *)
Theorem balances_stay_nonnegative `{Platform} (cs : list Call) (db : DB) :
  Forall (fun d => 0 <= Wallet.balance d) (wallets db) ->
  Forall (fun d => 0 <= Wallet.balance d) (wallets (callAll cs db)).
Proof.
  apply (callAll_keeps (fun db => Forall (fun d => 0 <= Wallet.balance d) (wallets db))).
  intros c d. apply call_balances.
Qed.

Lemma balances_stay_nonnegative_witness :
  Forall (fun d => 0 <= Wallet.balance d)
    (wallets (@callAll Sample.bare Scenario.twice (Sample.funded 50))).
Proof.
  apply (@balances_stay_nonnegative Sample.bare Scenario.twice (Sample.funded 50)).
  repeat constructor. cbn. lia.
Defined.

Lemma call_owners `{Platform} (c : Call) (db : DB) :
  map Wallet.userId (wallets (snd (call c db))) = map Wallet.userId (wallets db).
Proof.
  destruct (call_cases c db) as [(r & _ & ->)|[(_ & e & ->)|(_ & w0 & img & _ & _ & ->)]];
    cbn [snd].
  - reflexivity.
  - rewrite annotated_wallets. reflexivity.
  - cbn [minted wallets]. rewrite !updateFirst_map; reflexivity.
Qed.

Lemma call_uniqueWallets `{Platform} (c : Call) (db : DB) :
  uniqueWallets db -> uniqueWallets (snd (call c db)).
Proof. unfold uniqueWallets. rewrite call_owners. auto. Qed.

(** On a list with one wallet a user, the lock and the settlement leave
    every [lockedBalance] as it was, when the amounts are within 2^52. *)
Lemma lock_then_settle_locked u price now l w0 :
  NoDup (map Wallet.userId l) ->
  Forall (fun z => Z.abs z <= half) (map Wallet.lockedBalance l) ->
  Z.abs price <= half ->
  find (canPay u price) l = Some w0 ->
  map Wallet.lockedBalance
    (updateFirst (ofUser u) (settleUpdate price)
       (updateFirst (canPay u price) (lockUpdate price now) l))
  = map Wallet.lockedBalance l.
Proof.
  induction l as [|d l IH]; intros U B P F; [discriminate F|].
  cbn [map] in U, B. inversion U as [|? ? Nd Ul]; subst.
  inversion B as [|? ? Bd Bl]; subst.
  cbn [find updateFirst] in *. destruct (canPay u price d) eqn:C.
  - pose proof (canPay_ofUser _ _ _ C) as O. cbn [updateFirst].
    change (ofUser u (lockUpdate price now d)) with (ofUser u d). rewrite O.
    cbn [map]. f_equal. cbn [settleUpdate lockUpdate Wallet.lockedBalance]. unfold inc.
    rewrite (double_safe (Wallet.lockedBalance d + price));
      [|unfold safe, limit; unfold half in *; lia].
    replace (Wallet.lockedBalance d + price + - price)
      with (Wallet.lockedBalance d) by lia.
    apply double_safe. unfold safe, limit. unfold half in *. lia.
  - destruct (ofUser u d) eqn:O.
    + apply find_some in F as [I F]. apply canPay_ofUser in F.
      unfold ofUser in O, F. apply String.eqb_eq in O, F.
      destruct Nd. rewrite O, <- F. apply in_map, I.
    + cbn [updateFirst]. rewrite O. cbn [map]. f_equal. apply IH; assumption.
Qed.

Lemma call_locked `{Platform} (c : Call) (db : DB) :
  uniqueWallets db ->
  Forall (fun z => Z.abs z <= half) (map Wallet.lockedBalance (wallets db)) ->
  Z.abs (priceCredits (request c)) <= half ->
  map Wallet.lockedBalance (wallets (snd (call c db)))
  = map Wallet.lockedBalance (wallets db).
Proof.
  intros U B P.
  destruct (call_cases c db) as [(r & _ & ->)|[(_ & e & ->)|(_ & w0 & img & F & _ & ->)]];
    cbn [snd].
  - reflexivity.
  - rewrite annotated_wallets. reflexivity.
  - cbn [minted wallets]. apply (lock_then_settle_locked _ _ _ _ w0 U B P F).
Qed.

(** X3. No funds stay locked, for integer amounts within 2^52: with one
    wallet a user, every [lockedBalance] within 2^52 in magnitude and every
    price of the calls within 2^52, every wallet has after any sequence of
    calls the [lockedBalance] it had before, whether the calls succeed or
    fail. *)
Theorem locked_balances_are_restored `{Platform} (cs : list Call) (db : DB) :
  uniqueWallets db ->
  Forall (fun z => Z.abs z <= half) (map Wallet.lockedBalance (wallets db)) ->
  Forall (fun c => Z.abs (priceCredits (request c)) <= half) cs ->
  map Wallet.lockedBalance (wallets (callAll cs db))
  = map Wallet.lockedBalance (wallets db).
Proof.
  intros U B P. revert db U B.
  induction P as [|c cs Pc P IH]; intros db U B; cbn [callAll].
  - reflexivity.
  - pose proof (call_locked c db U B Pc) as E.
    rewrite IH; [exact E | apply call_uniqueWallets, U | rewrite E; exact B].
Qed.

Lemma locked_balances_are_restored_witness :
  map Wallet.lockedBalance
    (wallets (@callAll Sample.bare Scenario.twice (Sample.funded 100)))
  = map Wallet.lockedBalance (wallets (Sample.funded 100)).
Proof.
  apply (@locked_balances_are_restored Sample.bare Scenario.twice (Sample.funded 100)).
  - unfold uniqueWallets. cbn. constructor; [intros []|constructor].
  - repeat constructor. unfold half. cbn. lia.
  - repeat constructor; unfold half; cbn; lia.
Defined.

(** ** The ledger *)

Lemma spent_app u l l' : spent u (l ++ l') = spent u l + spent u l'.
Proof. induction l as [|e l IH]; cbn [spent app]; [reflexivity|]. rewrite IH. lia. Qed.

Lemma updateFirst_holds {T} (P : T -> Prop) (f : T -> bool) (g : T -> T) (l : list T) :
  (forall d, f d = true -> P d -> P (g d)) -> Forall P l -> Forall P (updateFirst f g l).
Proof.
  intros G F. induction F as [|d l Pd F IH]; cbn; [constructor|].
  destruct (f d) eqn:E; constructor; auto.
Qed.

Lemma call_bounded `{Platform} (c : Call) (db : DB) :
  0 <= priceCredits (request c) ->
  Forall (fun d => 0 <= Wallet.balance d <= limit) (wallets db) ->
  Forall (fun d => 0 <= Wallet.balance d <= limit) (wallets (snd (call c db))).
Proof.
  intros P B.
  destruct (call_cases c db) as [(r & _ & ->)|[(_ & e & ->)|(_ & w0 & img & _ & _ & ->)]];
    cbn [snd].
  - exact B.
  - rewrite annotated_wallets. exact B.
  - cbn [minted wallets]. apply updateFirst_holds.
    + intros d _ D. exact D.
    + apply updateFirst_holds; [|exact B]. intros d E D.
      unfold canPay in E. apply andb_true_iff in E as [_ E]. apply Z.leb_le in E.
      cbn [lockUpdate Wallet.balance]. unfold inc.
      rewrite double_safe; [lia|]. unfold safe. lia.
Qed.

Lemma call_accounts `{Platform} (c : Call) (db : DB) (v : string) :
  uniqueWallets db ->
  Forall (fun d => 0 <= Wallet.balance d <= limit) (wallets db) ->
  0 <= priceCredits (request c) ->
  balanceOf v (wallets (snd (call c db))) + spent v (ledger (snd (call c db)))
  = balanceOf v (wallets db) + spent v (ledger db).
Proof.
  intros U B P.
  destruct (call_cases c db) as [(r & _ & ->)|[(_ & e & ->)|(_ & w0 & img & F & _ & ->)]];
    cbn [snd].
  - reflexivity.
  - rewrite annotated_wallets, annotated_ledger. reflexivity.
  - cbn [minted wallets ledger]. rewrite spent_app. cbn [spent].
    change (isSpend v (lockEntry (world c) (user c) (request c))) with false.
    change (isSpend v (spendEntry (world c) (user c) (request c)))
      with (String.eqb (user c) v).
    change (Ledger.amount (spendEntry (world c) (user c) (request c)))
      with (priceCredits (request c)).
    unfold balanceOf. destruct (String.eqb_spec (user c) v) as [<-|N].
    + destruct (lock_then_settle (user c) (priceCredits (request c))
                  (new_Date (world c)) _ _ U F) as [-> ->].
      pose proof (find_some _ _ F) as [I C].
      pose proof (proj1 (Forall_forall _ _) B w0 I) as D. cbn beta in D.
      unfold canPay in C. apply andb_true_iff in C as [_ C]. apply Z.leb_le in C.
      cbn [settleUpdate lockUpdate Wallet.balance]. unfold inc.
      rewrite double_safe; [lia|]. unfold safe. lia.
    + rewrite !updateFirst_find; try reflexivity; try lia;
        intros d E; try apply canPay_ofUser in E; unfold ofUser in *;
        apply String.eqb_eq in E; apply String.eqb_neq; congruence.
Qed.

(** X4. The ledger accounts for the balance, for integer amounts in the
    range where the doubles are exact: with one wallet a user, balances
    between 0 and 2^53 and prices that are not negative, for every user the
    balance plus the amounts of the user's CREDIT_SPEND entries is the same
    after any sequence of calls as before it. *)
Theorem ledger_accounts_for_balance `{Platform} (cs : list Call) (db : DB) (v : string) :
  uniqueWallets db ->
  Forall (fun d => 0 <= Wallet.balance d <= limit) (wallets db) ->
  Forall (fun c => 0 <= priceCredits (request c)) cs ->
  balanceOf v (wallets (callAll cs db)) + spent v (ledger (callAll cs db))
  = balanceOf v (wallets db) + spent v (ledger db).
Proof.
  intros U B P. revert db U B.
  induction P as [|c cs Pc P IH]; intros db U B; cbn [callAll].
  - reflexivity.
  - rewrite IH; [apply call_accounts; assumption | apply call_uniqueWallets, U
                | apply call_bounded; assumption].
Qed.

Lemma ledger_accounts_for_balance_witness :
  balanceOf Sample.alice
    (wallets (@callAll Sample.bare Scenario.twice (Sample.funded 100)))
  + spent Sample.alice
      (ledger (@callAll Sample.bare Scenario.twice (Sample.funded 100)))
  = 100 + 0.
Proof.
  apply (@ledger_accounts_for_balance Sample.bare Scenario.twice (Sample.funded 100)
           Sample.alice).
  - unfold uniqueWallets. cbn. constructor; [intros []|constructor].
  - repeat constructor; unfold limit; cbn; lia.
  - repeat constructor; cbn; lia.
Defined.

Lemma paired_app l l' : paired l -> paired l' -> paired (l ++ l').
Proof.
  intros P P'. induction P; cbn [app]; [exact P'|].
  econstructor; eassumption.
Qed.

Lemma call_paired `{Platform} (c : Call) (db : DB) :
  paired (ledger db) -> paired (ledger (snd (call c db))).
Proof.
  intros P.
  destruct (call_cases c db) as [(r & _ & ->)|[(_ & e & ->)|(_ & w0 & img & _ & _ & ->)]];
    cbn [snd].
  - exact P.
  - rewrite annotated_ledger. exact P.
  - cbn [minted ledger]. apply paired_app; [exact P|].
    apply paired_cons with (key := idempotencyKey (request c));
      try reflexivity. constructor.
Qed.

(** X5. No lock entry stays without its spend entry: a ledger made of
    lock entries each followed by the spend entry of the same key, user
    and amount is one after any sequence of calls; a failed mint leaves no
    entry. *)
Theorem ledger_stays_paired `{Platform} (cs : list Call) (db : DB) :
  paired (ledger db) -> paired (ledger (callAll cs db)).
Proof.
  apply (callAll_keeps (fun db => paired (ledger db))). intros c d. apply call_paired.
Qed.

Lemma ledger_stays_paired_witness :
  paired (ledger (@callAll Sample.bare Scenario.twice (Sample.funded 100))).
Proof.
  apply (@ledger_stays_paired Sample.bare Scenario.twice (Sample.funded 100)).
  constructor.
Defined.

Lemma extends_refl db : extends db db.
Proof. repeat split; exists []; rewrite app_nil_r; reflexivity. Qed.

Lemma extends_trans a b c : extends a b -> extends b c -> extends a c.
Proof.
  intros ([l1 E1] & [l2 E2] & [l3 E3] & [l4 E4]) ([m1 F1] & [m2 F2] & [m3 F3] & [m4 F4]).
  repeat split.
  - exists (l1 ++ m1)%list. rewrite F1, E1, app_assoc. reflexivity.
  - exists (l2 ++ m2)%list. rewrite F2, E2, app_assoc. reflexivity.
  - exists (l3 ++ m3)%list. rewrite F3, E3, app_assoc. reflexivity.
  - exists (l4 ++ m4)%list. rewrite F4, E4, app_assoc. reflexivity.
Qed.

Lemma call_extends `{Platform} (c : Call) (db : DB) : extends db (snd (call c db)).
Proof.
  destruct (call_cases c db) as [(r & _ & ->)|[(_ & e & ->)|(_ & w0 & img & _ & _ & ->)]];
    cbn [snd].
  - apply extends_refl.
  - destruct (annotated_rest (world c) (user c) (request c) e db)
      as (_ & E1 & E2 & E3 & E4 & _).
    unfold extends. rewrite E1, E2, E3, E4. apply extends_refl.
  - unfold extends. cbn [minted ledger assets receipts audits].
    repeat split; eexists; reflexivity.
Qed.

Lemma callAll_extends `{Platform} (cs : list Call) :
  forall db, extends db (callAll cs db).
Proof.
  induction cs as [|c cs IH]; intros db; cbn [callAll].
  - apply extends_refl.
  - apply extends_trans with (b := snd (call c db)); [apply call_extends | apply IH].
Qed.

(** X6. The ledger, the assets, the receipts and the audit events are
    append-only: after any sequence of calls each of the four collections
    is the one before it, document for document, with the new documents
    after it. *)
Theorem collections_are_append_only `{Platform} (cs : list Call) (db : DB) :
  extends db (callAll cs db).
Proof. apply callAll_extends. Qed.

(** * When a mint goes through *)


Lemma mintSteps_went_through `{Platform} w u p c t r st :
  mintSteps w u p (mkStore c (Some t)) = (Normal r, st) ->
  exists img, goesThrough w u p img t.
Proof.
  unfold mintSteps. intros E.
  rewrite bind_run, findOneAndUpdate_open in E.
  destruct (find _ (wallets t)) as [w0|] eqn:Ew; cbn [option_map] in E; [|discriminate E].
  rewrite bind_run, ledger_create_open in E.
  destruct (insertOne _ _ _) as [l1|] eqn:E1 in E; [|discriminate E].
  apply insertOne_normal in E1 as [V1 ->].
  rewrite bind_run, request_create_open in E.
  destruct (insertOne _ _ _) as [l2|] eqn:E2 in E; [|discriminate E].
  apply insertOne_normal in E2 as [V2 ->].
  destruct (meta p) as [m|] eqn:Em; [|discriminate E].
  rewrite bind_run in E.
  change {| model := _; contents := _; aspectRatio := _ |}
    with (generationParameters m) in E.
  destruct (generateContent w (generationParameters m)) as [response|reason] eqn:Eg;
    [|discriminate E].
  cbn [await ret] in E. rewrite bind_run in E. unfold complete in E.
  destruct (partsOf response) as [ps|] eqn:Ep; [|discriminate E].
  destruct (truthy (scanParts (Some "") ps)) as [img|] eqn:Ei; [|discriminate E].
  rewrite bind_run, asset_create_open in E.
  destruct (NftAsset.validate _) eqn:Ev in E; [discriminate E|].
  destruct (insertOne _ _ _) as [l3|] eqn:E3 in E; [|discriminate E].
  apply insertOne_normal in E3 as [V3 ->].
  rewrite bind_run, wallet_updateOne_open in E.
  rewrite bind_run, ledger_create_open in E.
  destruct (insertOne _ _ _) as [l4|] eqn:E4 in E; [|discriminate E].
  apply insertOne_normal in E4 as [V4 ->].
  rewrite bind_run, receipt_create_open in E.
  destruct (insertOne _ _ _) as [l5|] eqn:E5 in E; [|discriminate E].
  apply insertOne_normal in E5 as [V5 ->].
  rewrite bind_run, request_updateOne_open in E.
  rewrite bind_run, audit_create_open in E.
  destruct (insertOne _ _ _) as [l6|] eqn:E6 in E; [|discriminate E].
  apply insertOne_normal in E6 as [V6 ->].
  exists img. unfold goesThrough. rewrite Ew.
  split; [discriminate|]. split; [exact V1|]. split; [exact V2|].
  split; [exists m; split; [exact Em|]; unfold usableImage; rewrite Eg, Ep; exact Ei|].
  split; [exact Ev|]. split; [exact V3|]. split; [exact V4|].
  split; [exact V5 | exact V6].
Qed.



(** * The documents of a mint *)

Lemma violated_request_id `{Platform} doc docs :
  violated MintRequest.indexes doc docs = None ->
  forall x, In x docs -> N.eqb (Request._id x) (Request._id doc) = false.
Proof.
  unfold MintRequest.indexes. cbn [violated].
  destruct (existsb _ docs) eqn:E; [discriminate|]. intros _ x I.
  destruct (N.eqb_spec (Request._id x) (Request._id doc)) as [Q|Q]; [|reflexivity].
  assert (X : existsb (fun b => N.eqb (Request._id doc) (Request._id b)) docs = true).
  { apply existsb_exists. exists x. split; [exact I|]. apply N.eqb_eq. auto. }
  rewrite X in E. discriminate E.
Qed.

Lemma updateFirst_last {T} (f : T -> bool) (g : T -> T) (l : list T) (a : T) :
  (forall x, In x l -> f x = false) -> f a = true ->
  updateFirst f g (l ++ [a]) = (l ++ [g a])%list.
Proof.
  induction l as [|b l IH]; intros N E; cbn.
  - rewrite E. reflexivity.
  - rewrite (N b (or_introl eq_refl)). f_equal. apply IH; [|exact E].
    intros x I. apply N. right. exact I.
Qed.

(** X8. The documents of a successful mint refer to each other: the
    receipt is the last receipt and names, by [_id], the one new request,
    which is COMPLETED with the payload as it came, and the new lock entry;
    the spend entry refers to that request; the audit event names the new
    asset and carries the receipt's transaction hash and token.  The
    requests that were there are untouched. *)
Theorem documents_refer_to_each_other `{Platform} (w : World) (u : string) (p : Payload)
    (db : DB) (r : Receipt.t) (st : Store) :
  find (receiptOf u (idempotencyKey p)) (receipts db) = None ->
  executeMintFlow w u p (atRest db) = (Normal r, st) ->
  exists lock spend a audit,
    receipts (committed st) = (receipts db ++ [r])%list /\
    requests (committed st)
    = (requests db ++ [Request.mk (Receipt.mintRequestId r) p u Request.COMPLETED None])%list /\
    ledger (committed st) = (ledger db ++ [lock; spend])%list /\
    assets (committed st) = (assets db ++ [a])%list /\
    audits (committed st) = (audits db ++ [audit])%list /\
    Receipt.ledgerEntryId r = Ledger._id lock /\
    Ledger.referenceId lock = Ledger.Draft (assetDraftId p) /\
    Ledger.referenceId spend = Ledger.Request (Receipt.mintRequestId r) /\
    Audit.entityId audit = Asset._id a /\
    Audit.hash audit = Receipt.txHash r /\
    Audit.meta_tokenId audit = Receipt.tokenId r /\
    Audit.actorUserId audit = u /\
    Asset.createdByUserId a = u /\
    Receipt.userId r = u /\
    Receipt.priceCredits r = priceCredits p.
Proof.
  intros G E. pose proof E as E'. rewrite (executeMintFlow_miss _ _ _ _ G) in E'.
  destruct (mintSteps w u p _) as [[r'|e] st'] eqn:S; [|discriminate E'].
  apply mintSteps_went_through in S as (img' & _ & _ & V2 & _).
  apply (executeMintFlow_returns _ _ _ _ _ _ G) in E
    as (w0 & m & img & _ & _ & _ & _ & -> & ->).
  exists (lockEntry w u p), (spendEntry w u p), (assetDoc w u p img), (auditDoc w u p).
  cbn [committed atRest minted receipts requests ledger assets audits].
  repeat split; try reflexivity.
  rewrite updateFirst_last; [reflexivity| |apply N.eqb_refl].
  apply (violated_request_id _ _ V2).
Qed.

Lemma documents_refer_to_each_other_witness :
  exists lock spend a audit,
    receipts Edge.afterFirst
    = ([] ++ [receiptDoc (Sample.world 0 (Resolved Sample.image))
                Sample.alice Sample.payload])%list /\
    requests Edge.afterFirst
    = ([] ++ [Request.mk 2%N Sample.payload Sample.alice Request.COMPLETED None])%list /\
    ledger Edge.afterFirst = ([] ++ [lock; spend])%list /\
    assets Edge.afterFirst = ([] ++ [a])%list /\
    audits Edge.afterFirst = ([] ++ [audit])%list /\
    1%N = Ledger._id lock /\
    Ledger.referenceId lock = Ledger.Draft "draft-1" /\
    Ledger.referenceId spend = Ledger.Request 2%N /\
    Audit.entityId audit = Asset._id a /\
    Audit.hash audit = "0x-internal-8f3a2c1d9b" /\
    Audit.meta_tokenId audit = "TOK-1730000000500-417" /\
    Audit.actorUserId audit = Sample.alice /\
    Asset.createdByUserId a = Sample.alice /\
    Sample.alice = Sample.alice /\
    30 = 30.
Proof.
  exact (@documents_refer_to_each_other Sample.indexed
           (Sample.world 0 (Resolved Sample.image)) Sample.alice Sample.payload
           (Sample.funded 100) _ _ eq_refl eq_refl).
Defined.

(** X9. The price is not checked for its sign: with one wallet a user, a
    mint with a negative [priceCredits] that goes through raises the
    balance by that amount, when the raised balance is within 2^53, where
    the doubles are exact. *)
Theorem negative_price_credits_the_wallet `{Platform} (w : World) (u : string)
    (p : Payload) (db : DB) (r : Receipt.t) (st : Store) :
  uniqueWallets db ->
  (forall d, In d (wallets db) -> Wallet.userId d = u ->
             safe (Wallet.balance d - priceCredits p)) ->
  find (receiptOf u (idempotencyKey p)) (receipts db) = None ->
  priceCredits p < 0 ->
  executeMintFlow w u p (atRest db) = (Normal r, st) ->
  balanceOf u (wallets (committed st)) = balanceOf u (wallets db) - priceCredits p /\
  balanceOf u (wallets db) < balanceOf u (wallets (committed st)).
Proof.
  intros U S G N E.
  apply (executeMintFlow_returns _ _ _ _ _ _ G) in E
    as (w0 & m & img & F & _ & _ & _ & _ & ->).
  destruct (lock_then_settle u (priceCredits p) (new_Date w) _ _ U F) as [B A].
  assert (S0 : safe (Wallet.balance w0 - priceCredits p)).
  { pose proof (find_some _ _ F) as [I C]. apply canPay_ofUser in C.
    apply S; [exact I|]. apply String.eqb_eq, C. }
  unfold balanceOf. cbn [committed atRest minted wallets]. rewrite A, B.
  cbn [settleUpdate lockUpdate Wallet.balance]. unfold inc.
  replace (Wallet.balance w0 + - priceCredits p)
    with (Wallet.balance w0 - priceCredits p) by lia.
  rewrite (double_safe _ S0). lia.
Qed.

Lemma negative_price_credits_the_wallet_witness :
  balanceOf Sample.alice
    (wallets (committed (snd (@executeMintFlow Sample.indexed
       (Sample.world 0 (Resolved Sample.image)) Sample.alice Edge.refund
       (atRest (Sample.funded 100))))))
  = 100 - -30 /\
  100 < balanceOf Sample.alice
    (wallets (committed (snd (@executeMintFlow Sample.indexed
       (Sample.world 0 (Resolved Sample.image)) Sample.alice Edge.refund
       (atRest (Sample.funded 100)))))).
Proof.
  refine (@negative_price_credits_the_wallet Sample.indexed
            (Sample.world 0 (Resolved Sample.image)) Sample.alice Edge.refund
            (Sample.funded 100) _ _ _ _ eq_refl _ eq_refl).
  - unfold uniqueWallets. cbn. constructor; [intros []|constructor].
  - intros d [<-|[]] _. unfold safe, limit. cbn. lia.
  - cbn. lia.
Defined.

(** * Fetching after other calls *)

Lemma find_app_some {T} (f : T -> bool) (l l' : list T) (a : T) :
  find f l = Some a -> find f (l ++ l') = Some a.
Proof.
  induction l as [|b l IH]; cbn; [discriminate|].
  destruct (f b); [auto|exact IH].
Qed.

(** X10. An image that is served stays served: when [serveAssetImage]
    returns an image for a [tokenId], it returns the same image after any
    sequence of calls of [executeMintFlow]. *)
Theorem served_image_stays `{Platform} (cs : list Call) (db : DB) (t : string)
    (img : ServedImage) :
  fst (serveAssetImage t (atRest db)) = Normal img ->
  fst (serveAssetImage t (atRest (callAll cs db))) = Normal img.
Proof.
  rewrite !serveAssetImage_run. cbn [fst committed atRest].
  destruct (callAll_extends cs db) as (_ & [l ->] & _).
  destruct (find (hasToken t) (assets db)) as [a|] eqn:F; [|discriminate].
  rewrite (find_app_some _ _ l _ F). auto.
Qed.

Lemma served_image_stays_witness :
  fst (serveAssetImage "TOK-1730000000500-417"
         (atRest (@callAll Sample.bare (skipn 1 Scenario.twice) Edge.afterFirst)))
  = Normal (png (Sample.decode "iVBORw0KGgo=")).
Proof.
  apply (@served_image_stays Sample.bare (skipn 1 Scenario.twice) Edge.afterFirst).
  reflexivity.
Defined.

(** * The gate *)

(** X11. A receipt that carries the key answers every call of its pair:
    when the receipts hold one with the [userId] and the [idempotencyKey],
    each call of that user with that key, whatever else the payload and
    the world are, returns the first such receipt, and the database is the
    same after any number of them. *)
Theorem keyed_receipt_answers_every_call `{Platform} (cs : list Call) (db : DB)
    (u key : string) (r : Receipt.t) :
  find (receiptOf u key) (receipts db) = Some r ->
  Forall (fun c => user c = u /\ idempotencyKey (request c) = key) cs ->
  Forall (fun c => call c db = (Normal r, db)) cs /\ callAll cs db = db.
Proof.
  intros G A. induction A as [|c cs [<- <-] A [IH1 IH2]]; cbn [callAll].
  - split; [constructor|reflexivity].
  - assert (E : call c db = (Normal r, db)).
    { unfold call. rewrite (executeMintFlow_hit _ _ _ _ _ G). reflexivity. }
    split; [constructor; assumption|]. rewrite E. exact IH2.
Qed.

Lemma keyed_receipt_answers_every_call_witness :
  Forall (fun c => @call Sample.indexed c Edge.withKeyed
                   = (Normal Edge.keyed, Edge.withKeyed)) Scenario.twice /\
  @callAll Sample.indexed Scenario.twice Edge.withKeyed = Edge.withKeyed.
Proof.
  apply (@keyed_receipt_answers_every_call Sample.indexed Scenario.twice Edge.withKeyed
           Sample.alice "key-1" Edge.keyed eq_refl).
  repeat constructor.
Defined.

Lemma own_receipt_is_not_found_witness :
  Receipt.idempotencyKey
    (receiptDoc (Sample.world 0 (Resolved Sample.image)) Sample.alice Sample.payload)
  = None /\
  find (receiptOf Sample.alice "key-1") (receipts Edge.afterFirst) = None.
Proof.
  exact (@own_receipt_is_not_found Sample.indexed
           (Sample.world 0 (Resolved Sample.image)) Sample.alice Sample.payload
           (Sample.funded 100) _ _ eq_refl eq_refl).
Defined.

(** * Failures *)

(** X13. Whatever makes the steps before the commit fail, the lock, a
    refused document, a missing [meta] or the provider, nothing of it
    stays: the wallets, the ledger, the assets, the receipts and the audit
    events are what they were, and no request is added or removed.  (A
    commit that fails is not in the model: [commitTransaction] goes through
    on an open transaction.) *)
Theorem every_failure_is_atomic `{Platform} (w : World) (u : string) (p : Payload)
    (db : DB) (e : JsError) (st : Store) :
  find (receiptOf u (idempotencyKey p)) (receipts db) = None ->
  executeMintFlow w u p (atRest db) = (Throw e, st) ->
  transaction st = None /\
  wallets (committed st) = wallets db /\
  ledger (committed st) = ledger db /\
  assets (committed st) = assets db /\
  receipts (committed st) = receipts db /\
  audits (committed st) = audits db /\
  map Request._id (requests (committed st)) = map Request._id (requests db) /\
  map Request.payload (requests (committed st)) = map Request.payload (requests db).
Proof.
  intros G E. apply (executeMintFlow_throws _ _ _ _ _ _ G) in E as ->.
  destruct (annotated_rest w u p e db) as (E1 & E2 & E3 & E4 & E5 & E6).
  cbn [transaction committed atRest]. repeat split; try assumption.
  unfold annotated. destruct (annotation_failure w); [reflexivity|].
  cbn [requests set_requests]. apply updateFirst_map. reflexivity.
Qed.

Lemma every_failure_is_atomic_witness :
  transaction (snd (@executeMintFlow Sample.indexed (Sample.world 1 (Resolved Sample.image))
                      Sample.alice Sample.payload (atRest Edge.afterFirst))) = None /\
  wallets (committed (snd (@executeMintFlow Sample.indexed
     (Sample.world 1 (Resolved Sample.image)) Sample.alice Sample.payload
     (atRest Edge.afterFirst)))) = wallets Edge.afterFirst /\
  ledger (committed (snd (@executeMintFlow Sample.indexed
     (Sample.world 1 (Resolved Sample.image)) Sample.alice Sample.payload
     (atRest Edge.afterFirst)))) = ledger Edge.afterFirst /\
  assets (committed (snd (@executeMintFlow Sample.indexed
     (Sample.world 1 (Resolved Sample.image)) Sample.alice Sample.payload
     (atRest Edge.afterFirst)))) = assets Edge.afterFirst /\
  receipts (committed (snd (@executeMintFlow Sample.indexed
     (Sample.world 1 (Resolved Sample.image)) Sample.alice Sample.payload
     (atRest Edge.afterFirst)))) = receipts Edge.afterFirst /\
  audits (committed (snd (@executeMintFlow Sample.indexed
     (Sample.world 1 (Resolved Sample.image)) Sample.alice Sample.payload
     (atRest Edge.afterFirst)))) = audits Edge.afterFirst /\
  map Request._id (requests (committed (snd (@executeMintFlow Sample.indexed
     (Sample.world 1 (Resolved Sample.image)) Sample.alice Sample.payload
     (atRest Edge.afterFirst))))) = map Request._id (requests Edge.afterFirst) /\
  map Request.payload (requests (committed (snd (@executeMintFlow Sample.indexed
     (Sample.world 1 (Resolved Sample.image)) Sample.alice Sample.payload
     (atRest Edge.afterFirst))))) = map Request.payload (requests Edge.afterFirst).
Proof.
  exact (@every_failure_is_atomic Sample.indexed (Sample.world 1 (Resolved Sample.image))
           Sample.alice Sample.payload Edge.afterFirst _ _ eq_refl eq_refl).
Defined.

Lemma updateFirst_split {T} (f : T -> bool) (g : T -> T) (pre post : list T) (a : T) :
  (forall x, In x pre -> f x = false) -> f a = true ->
  updateFirst f g (pre ++ a :: post) = (pre ++ g a :: post)%list.
Proof.
  induction pre as [|b l IH]; intros N E; cbn.
  - rewrite E. reflexivity.
  - rewrite (N b (or_introl eq_refl)). f_equal. apply IH; [|exact E].
    intros x I. apply N. right. exact I.
Qed.

(** X14. The annotation reaches a request that was committed before: when
    the saga fails and the annotation goes through, the first request of
    the pair that the database already held gets the status FAILED and the
    message of the error, whatever its status was, and the other requests
    are untouched. *)
Theorem committed_request_is_marked_failed `{Platform} (w : World) (u : string)
    (p : Payload) (db : DB) (e : JsError) (st : Store) (pre post : list Request.t)
    (r0 : Request.t) :
  find (receiptOf u (idempotencyKey p)) (receipts db) = None ->
  annotation_failure w = None ->
  requests db = (pre ++ r0 :: post)%list ->
  (forall x, In x pre -> requestOf u (idempotencyKey p) x = false) ->
  requestOf u (idempotencyKey p) r0 = true ->
  executeMintFlow w u p (atRest db) = (Throw e, st) ->
  requests (committed st)
  = (pre ++ Request.mk (Request._id r0) (Request.payload r0) (Request.userId r0)
              Request.FAILED (Some (message e)) :: post)%list.
Proof.
  intros G A R N M E. apply (executeMintFlow_throws _ _ _ _ _ _ G) in E as ->.
  unfold annotated. rewrite A. cbn [committed atRest requests set_requests].
  rewrite R, (updateFirst_split _ _ _ _ _ N M). reflexivity.
Qed.

Lemma committed_request_is_marked_failed_witness :
  requests (committed (snd (@executeMintFlow Sample.indexed
     (Sample.world 1 (Resolved Sample.image)) Sample.alice Sample.payload
     (atRest Edge.afterFirst))))
  = ([] ++ Request.mk 2%N Sample.payload Sample.alice Request.FAILED
             (Some "E11000 duplicate key error index: idempotencyKey_1") :: [])%list.
Proof.
  refine (@committed_request_is_marked_failed Sample.indexed
            (Sample.world 1 (Resolved Sample.image)) Sample.alice Sample.payload
            Edge.afterFirst _ _ [] []
            (Request.mk 2%N Sample.payload Sample.alice Request.COMPLETED None)
            eq_refl eq_refl eq_refl _ eq_refl eq_refl).
  intros x [].
Defined.

Lemma failed_mint_leaves_no_request_witness :
  snd (@executeMintFlow Sample.indexed (Sample.world 0 Scenario.unreachable)
         Sample.alice Sample.payload (atRest (Sample.funded 100)))
  = atRest (Sample.funded 100).
Proof.
  refine (@failed_mint_leaves_no_request Sample.indexed
            (Sample.world 0 Scenario.unreachable) Sample.alice Sample.payload
            (Sample.funded 100) _ _ eq_refl _ eq_refl).
  intros r [].
Defined.

Lemma malformed_response_error_witness :
  fst (@executeMintFlow Sample.indexed (Sample.world 0 (Resolved Sample.blocked))
         Sample.alice Sample.payload (atRest (Sample.funded 100)))
  = Throw (TypeError "Cannot read properties of undefined (reading '0')") /\
  name (TypeError "Cannot read properties of undefined (reading '0')") = "TypeError".
Proof.
  exact (@malformed_response_error Sample.indexed
           (Sample.world 0 (Resolved Sample.blocked)) Sample.alice Sample.payload
           (Sample.funded 100) (Sample.wallet 100)
           {| concept := "river cleanup"; theme := "civic" |} Sample.blocked _
           eq_refl eq_refl eq_refl eq_refl eq_refl eq_refl eq_refl).
Defined.

(** * The edges of the input *)

Lemma scanParts_first v pre part post d :
  (forall x, In x pre -> inlineData x = None) -> inlineData part = Some d ->
  scanParts v (pre ++ part :: post) = data d.
Proof.
  intros N D. induction pre as [|x pre IH]; cbn.
  - rewrite D. reflexivity.
  - rewrite (N x (or_introl eq_refl)). apply IH. intros y I. apply N. right. exact I.
Qed.

(** X15. Only the first part with [inlineData] counts: the image of a
    response is the [data] of that part when it is a non-empty string, and
    there is none when that [data] is empty or missing, whatever the later
    parts hold. *)
Theorem first_inline_part_decides (response : GenerateContentResponse)
    (pre post : list Part) (part : Part) (d : InlineData) :
  partsOf response = Normal (pre ++ part :: post)%list ->
  (forall x, In x pre -> inlineData x = None) ->
  inlineData part = Some d ->
  usableImage (Resolved response) = truthy (data d).
Proof.
  intros E N D. unfold usableImage. rewrite E. f_equal.
  apply scanParts_first; assumption.
Qed.

Lemma first_inline_part_decides_witness :
  usableImage (Resolved Edge.emptyFirstResponse) = truthy (Some "").
Proof.
  refine (first_inline_part_decides Edge.emptyFirstResponse
            [ {| text := Some "two attempts"; inlineData := None |} ]
            [ {| text := None; inlineData := Some {| data := Some "iVBORw0KGgo=" |} |} ]
            {| text := None; inlineData := Some {| data := Some "" |} |}
            {| data := Some "" |} eq_refl _ eq_refl).
  intros x [<-|[]]. reflexivity.
Defined.

(** X16. A payload without [meta] cannot mint: when the funds are locked
    and the request recorded, the read of [meta.concept] throws a
    TypeError, before the provider is asked, and the saga is aborted. *)
Theorem missing_meta_aborts `{Platform} (w : World) (u : string) (p : Payload) (db : DB)
    (w0 : Wallet.t) :
  find (receiptOf u (idempotencyKey p)) (receipts db) = None ->
  find (canPay u (priceCredits p)) (wallets db) = Some w0 ->
  violated CreditLedger.indexes (lockEntry w u p) (ledger db) = None ->
  violated MintRequest.indexes (requestDoc w u p) (requests db) = None ->
  meta p = None ->
  executeMintFlow w u p (atRest db)
  = (Throw (TypeError "Cannot read properties of undefined (reading 'concept')"),
     atRest (annotated w u p
               (TypeError "Cannot read properties of undefined (reading 'concept')") db)).
Proof.
  intros G F V1 V2 Em. rewrite (executeMintFlow_miss _ _ _ _ G).
  assert (S : exists t, mintSteps w u p (mkStore db (Some db))
     = (Throw (TypeError "Cannot read properties of undefined (reading 'concept')"),
        mkStore db (Some t))).
  { unfold mintSteps.
    rewrite bind_run, findOneAndUpdate_open, F. cbn [option_map].
    rewrite bind_run, ledger_create_open. unfold insertOne at 1.
    cbn [ledger set_wallets]. fold (lockEntry w u p). rewrite V1.
    rewrite bind_run, request_create_open. unfold insertOne at 1.
    cbn [requests set_ledger set_wallets]. fold (requestDoc w u p). rewrite V2.
    rewrite Em. eexists. reflexivity. }
  destruct S as [t ->]. reflexivity.
Qed.

Lemma missing_meta_aborts_witness :
  @executeMintFlow Sample.indexed (Sample.world 0 (Resolved Sample.image))
    Sample.alice Edge.noMeta (atRest (Sample.funded 100))
  = (Throw (TypeError "Cannot read properties of undefined (reading 'concept')"),
     atRest (annotated (Sample.world 0 (Resolved Sample.image)) Sample.alice Edge.noMeta
               (TypeError "Cannot read properties of undefined (reading 'concept')")
               (Sample.funded 100))).
Proof.
  exact (@missing_meta_aborts Sample.indexed (Sample.world 0 (Resolved Sample.image))
           Sample.alice Edge.noMeta (Sample.funded 100) (Sample.wallet 100)
           eq_refl eq_refl eq_refl eq_refl eq_refl).
Defined.

Lemma validate_required `{Platform} w u p img :
  NftAsset.validate (assetDoc w u p img) = None ->
  collectionId p <> "" /\ chain p <> "" /\ u <> "".
Proof.
  unfold NftAsset.validate, NftAsset.required, assetDoc.
  cbn [Asset.tokenId Asset.collectionId Asset.chain Asset.metadataUri Asset.imageUri
       Asset.createdByUserId find snd].
  change (String.eqb (mintTokenId w) "") with false.
  destruct (String.eqb_spec (collectionId p) ""); [discriminate|].
  destruct (String.eqb_spec (chain p) ""); [discriminate|].
  change (String.eqb ("dpal://metadata/" ++ mintTokenId w) "") with false.
  change (String.eqb ("/api/assets/" ++ mintTokenId w ++ ".png") "") with false.
  cbv iota.
  destruct (String.eqb_spec u ""); [discriminate|]. auto.
Qed.

(** X17. The required paths of the asset schema hold the mint back: with
    an empty [collectionId], an empty [chain] or an empty [userId] the
    call never returns a receipt; when the gate misses it throws and stores
    no asset. *)
Theorem empty_required_path_never_mints `{Platform} (w : World) (u : string)
    (p : Payload) (db : DB) :
  find (receiptOf u (idempotencyKey p)) (receipts db) = None ->
  collectionId p = "" \/ chain p = "" \/ u = "" ->
  exists e st,
    executeMintFlow w u p (atRest db) = (Throw e, st) /\
    assets (committed st) = assets db.
Proof.
  intros G B. pose proof (executeMintFlow_miss w u p db G) as M.
  destruct (executeMintFlow w u p (atRest db)) as [[r|e] st] eqn:E.
  - destruct (mintSteps w u p _) as [[r'|e'] st'] eqn:S; [|discriminate M].
    apply mintSteps_went_through in S as (img & _ & _ & _ & _ & Va & _).
    apply validate_required in Va as (A1 & A2 & A3).
    destruct B as [B|[B|B]]; contradiction.
  - exists e, st. split; [reflexivity|].
    apply (executeMintFlow_throws _ _ _ _ _ _ G) in E as ->.
    apply annotated_assets.
Qed.

Lemma empty_required_path_never_mints_witness :
  exists e st,
    @executeMintFlow Sample.indexed (Sample.world 0 (Resolved Sample.image))
      Sample.alice Edge.noCollection (atRest (Sample.funded 100)) = (Throw e, st) /\
    assets (committed st) = [].
Proof.
  refine (@empty_required_path_never_mints Sample.indexed
            (Sample.world 0 (Resolved Sample.image)) Sample.alice Edge.noCollection
            (Sample.funded 100) eq_refl _).
  left. reflexivity.
Defined.

(** X18. A token identifier is not given twice: when an asset already has
    the identifier that the call synthesizes, the call never returns a
    receipt; when the gate misses it throws and stores no asset. *)
Theorem taken_tokenId_never_mints `{Platform} (w : World) (u : string) (p : Payload)
    (db : DB) (a : Asset.t) :
  find (receiptOf u (idempotencyKey p)) (receipts db) = None ->
  In a (assets db) ->
  Asset.tokenId a = mintTokenId w ->
  exists e st,
    executeMintFlow w u p (atRest db) = (Throw e, st) /\
    assets (committed st) = assets db.
Proof.
  intros G I T.
  destruct (executeMintFlow w u p (atRest db)) as [[r|e] st] eqn:E.
  - apply (executeMintFlow_returns _ _ _ _ _ _ G) in E
      as (w0 & m & img & _ & _ & _ & V & _).
    apply violated_tokenId in V. destruct V.
    apply in_map_iff. exists a. split; [exact T | exact I].
  - exists e, st. split; [reflexivity|].
    apply (executeMintFlow_throws _ _ _ _ _ _ G) in E as ->.
    apply annotated_assets.
Qed.

Lemma taken_tokenId_never_mints_witness :
  exists e st,
    @executeMintFlow Sample.bare Scenario.sameTick Sample.alice Edge.refund
      (atRest Edge.afterFirst) = (Throw e, st) /\
    assets (committed st) = assets Edge.afterFirst.
Proof.
  refine (@taken_tokenId_never_mints Sample.bare Scenario.sameTick Sample.alice
            Edge.refund Edge.afterFirst
            (@assetDoc Sample.indexed (Sample.world 0 (Resolved Sample.image))
               Sample.alice Sample.payload "iVBORw0KGgo=") eq_refl _ eq_refl).
  left. reflexivity.
Defined.

(** * The token identifier *)

Lemma Z_to_string_inj z z' : Z_to_string z = Z_to_string z' -> z = z'.
Proof.
  unfold Z_to_string. intros E. apply DecimalZ.to_int_inj.
  assert (P : forall n, NilZero.int_of_string (NilZero.string_of_int (Z.to_int n))
                        = Some (Z.to_int n)).
  { intros n. apply NilZero.isi; destruct n; cbn; try discriminate;
      intros Q; injection Q as Q; exact (DecimalPos.Unsigned.to_uint_nonnil _ Q). }
  pose proof (P z) as Pz. rewrite E, P in Pz. injection Pz as Pz. auto.
Qed.

Lemma digits_dashFree d : dashFree (NilEmpty.string_of_uint d).
Proof. induction d; cbn; auto; split; auto; discriminate. Qed.

Lemma Z_to_string_dashFree z : 0 <= z -> dashFree (Z_to_string z).
Proof.
  unfold Z_to_string. destruct z as [|q|q]; intros N; [cbn; split; [discriminate|exact I]| |lia].
  cbn [Z.to_int NilZero.string_of_int]. unfold NilZero.string_of_uint.
  destruct (Pos.to_uint q) eqn:E; try (rewrite <- E; apply digits_dashFree).
  cbn. split; [discriminate|exact I].
Qed.

(** Two strings without a dash, each followed by a dash and a rest: the
    first dash tells where they end. *)
Lemma dash_splits s s' t t' :
  dashFree s -> dashFree s' ->
  s ++ String "-" t = s' ++ String "-" t' -> s = s' /\ t = t'.
Proof.
  revert s'. induction s as [|c s IH]; intros [|c' s'] D D' E; cbn in *.
  - injection E as E. auto.
  - injection E as E _. destruct D' as [D' _]. destruct D'. auto.
  - injection E as E _. destruct D as [D _]. destruct D. auto.
  - injection E as Ec E. destruct D as [_ D], D' as [_ D'].
    destruct (IH s' D D' E) as [-> ->]. subst. auto.
Qed.

(** X19. Two calls synthesize the same [tokenId] exactly when they read
    the same millisecond from the clock and draw the same number: the
    identifier tells both apart, and nothing else of the call enters it. *)
Theorem tokenId_tells_time_and_draw (w w' : World) :
  0 <= Date_now w -> 0 <= Date_now w' ->
  (mintTokenId w = mintTokenId w' <->
   Date_now w = Date_now w' /\ Math_random_1000 w = Math_random_1000 w').
Proof.
  intros N N'. unfold mintTokenId. split.
  - intros E. cbn in E. injection E as E.
    apply dash_splits in E as [E1 E2]; try (apply Z_to_string_dashFree; assumption).
    split; apply Z_to_string_inj; assumption.
  - intros [-> ->]. reflexivity.
Qed.

Lemma tokenId_tells_time_and_draw_witness :
  mintTokenId (Sample.world 0 (Resolved Sample.image)) = mintTokenId Scenario.sameTick <->
  1730000000500 = 1730000000500 /\ 417 = 417.
Proof.
  apply (tokenId_tells_time_and_draw (Sample.world 0 (Resolved Sample.image))
           Scenario.sameTick); cbn; lia.
Defined.

(** * Requests and receipts over time *)

(** The requests after a call: the ones before it; or those with the
    annotation; or those and the completed request of the mint. *)
Lemma call_requests `{Platform} (c : Call) (db : DB) :
  requests (snd (call c db)) = requests db \/
  (exists e,
     requests (snd (call c db))
     = updateFirst (requestOf (user c) (idempotencyKey (request c)))
         (setStatus Request.FAILED (Some (message e))) (requests db)) \/
  requests (snd (call c db))
  = (requests db ++ [Request.mk (request_id (world c)) (request c) (user c)
                       Request.COMPLETED None])%list.
Proof.
  unfold call.
  destruct (find (receiptOf (user c) (idempotencyKey (request c))) (receipts db))
    as [r|] eqn:G.
  - left. rewrite (executeMintFlow_hit _ _ _ _ _ G). reflexivity.
  - rewrite (executeMintFlow_miss _ _ _ _ G).
    destruct (mintSteps _ _ _ _) as [[r|e] st] eqn:S.
    + right. right. pose proof S as S'.
      apply mintSteps_went_through in S' as (img' & _ & _ & V2 & _).
      apply mintSteps_returns in S as (w0 & m & img & _ & _ & _ & _ & _ & ->).
      cbn [snd committed atRest minted requests].
      rewrite updateFirst_last; [reflexivity| |apply N.eqb_refl].
      apply (violated_request_id _ _ V2).
    + apply mintSteps_abortable in S. rewrite S. cbn [snd committed atRest].
      unfold annotated. destruct (annotation_failure (world c)).
      * left. reflexivity.
      * right. left. exists e. reflexivity.
Qed.

Lemma call_settled `{Platform} (c : Call) (db : DB) :
  Forall (fun r => Request.status r <> Request.PROCESSING) (requests db) ->
  Forall (fun r => Request.status r <> Request.PROCESSING) (requests (snd (call c db))).
Proof.
  intros A. destruct (call_requests c db) as [->|[[e ->]| ->]].
  - exact A.
  - induction A as [|x l Px A IH]; cbn; [constructor|].
    destruct (requestOf _ _ x); constructor; auto. cbn. discriminate.
  - apply Forall_app. split; [exact A|]. constructor; [cbn; discriminate|constructor].
Qed.

(** X20. No request stays PROCESSING: when no committed request has that
    status, none has it after any sequence of calls; the request of a mint
    is committed as COMPLETED or not at all. *)
Theorem no_request_stays_processing `{Platform} (cs : list Call) (db : DB) :
  Forall (fun r => Request.status r <> Request.PROCESSING) (requests db) ->
  Forall (fun r => Request.status r <> Request.PROCESSING) (requests (callAll cs db)).
Proof.
  apply (callAll_keeps
           (fun db => Forall (fun r => Request.status r <> Request.PROCESSING) (requests db))).
  intros c d. apply call_settled.
Qed.

Lemma no_request_stays_processing_witness :
  Forall (fun r => Request.status r <> Request.PROCESSING)
    (requests (@callAll Sample.indexed Scenario.twice (Sample.funded 100))).
Proof.
  apply (@no_request_stays_processing Sample.indexed Scenario.twice (Sample.funded 100)).
  constructor.
Defined.

Lemma call_receipts_have_assets `{Platform} (c : Call) (db : DB) :
  (forall r, In r (receipts db) ->
     exists a, In a (assets db) /\ Asset.tokenId a = Receipt.tokenId r /\
               Asset.imageUri a = Receipt.imageUri r /\
               Asset.metadataUri a = Receipt.metadataUri r) ->
  forall r, In r (receipts (snd (call c db))) ->
    exists a, In a (assets (snd (call c db))) /\ Asset.tokenId a = Receipt.tokenId r /\
              Asset.imageUri a = Receipt.imageUri r /\
              Asset.metadataUri a = Receipt.metadataUri r.
Proof.
  intros A.
  destruct (call_cases c db) as [(r & _ & ->)|[(_ & e & ->)|(_ & w0 & img & _ & _ & ->)]];
    cbn [snd].
  - exact A.
  - destruct (annotated_rest (world c) (user c) (request c) e db)
      as (_ & _ & -> & -> & _). exact A.
  - cbn [minted receipts assets]. intros r I. apply in_app_or in I as [I|[<-|[]]].
    + destruct (A r I) as (a & Ia & Q). exists a. split; [|exact Q].
      apply in_or_app. left. exact Ia.
    + exists (assetDoc (world c) (user c) (request c) img).
      split; [apply in_or_app; right; left; reflexivity|]. repeat split.
Qed.

(** X21. Every receipt has its asset: when every receipt names the
    [tokenId], the [imageUri] and the [metadataUri] of a stored asset, so
    does every receipt after any sequence of calls. *)
Theorem receipts_have_assets `{Platform} (cs : list Call) (db : DB) :
  (forall r, In r (receipts db) ->
     exists a, In a (assets db) /\ Asset.tokenId a = Receipt.tokenId r /\
               Asset.imageUri a = Receipt.imageUri r /\
               Asset.metadataUri a = Receipt.metadataUri r) ->
  forall r, In r (receipts (callAll cs db)) ->
    exists a, In a (assets (callAll cs db)) /\ Asset.tokenId a = Receipt.tokenId r /\
              Asset.imageUri a = Receipt.imageUri r /\
              Asset.metadataUri a = Receipt.metadataUri r.
Proof.
  apply (callAll_keeps
    (fun db => forall r, In r (receipts db) ->
       exists a, In a (assets db) /\ Asset.tokenId a = Receipt.tokenId r /\
                 Asset.imageUri a = Receipt.imageUri r /\
                 Asset.metadataUri a = Receipt.metadataUri r)).
  intros c d. apply call_receipts_have_assets.
Qed.

Lemma receipts_have_assets_witness :
  exists a, In a (assets (@callAll Sample.bare Scenario.twice (Sample.funded 100))) /\
            Asset.tokenId a = "TOK-1730000000501-417" /\
            Asset.imageUri a = "/api/assets/TOK-1730000000501-417.png" /\
            Asset.metadataUri a = "dpal://metadata/TOK-1730000000501-417".
Proof.
  refine (@receipts_have_assets Sample.bare Scenario.twice (Sample.funded 100) _
            (receiptDoc (Sample.world 1 (Resolved Sample.image))
               Sample.alice Sample.payload) _).
  - intros r [].
  - right. left. reflexivity.
Defined.

(** X25. A user id that the driver does not take for an ObjectId never
    mints: the asset's [createdByUserId] cannot be cast, so when the gate
    misses the call throws and stores no asset. *)
Theorem uncastable_userId_never_mints `{Platform} (w : World) (u : string)
    (p : Payload) (db : DB) :
  find (receiptOf u (idempotencyKey p)) (receipts db) = None ->
  ObjectId_accepts u = false ->
  exists e st,
    executeMintFlow w u p (atRest db) = (Throw e, st) /\
    assets (committed st) = assets db.
Proof.
  intros G B. pose proof (executeMintFlow_miss w u p db G) as M.
  destruct (executeMintFlow w u p (atRest db)) as [[r|e] st] eqn:E.
  - destruct (mintSteps w u p _) as [[r'|e'] st'] eqn:S; [|discriminate M].
    apply mintSteps_went_through in S as (img & _ & _ & _ & _ & Va & _).
    unfold NftAsset.validate in Va.
    destruct (find _ (NftAsset.required _)) as [[path v]|]; [discriminate Va|].
    cbn [Asset.createdByUserId assetDoc] in Va. rewrite B in Va. discriminate Va.
  - exists e, st. split; [reflexivity|].
    apply (executeMintFlow_throws _ _ _ _ _ _ G) in E as ->.
    apply annotated_assets.
Qed.

Lemma uncastable_userId_never_mints_witness :
  exists e st,
    @executeMintFlow Sample.indexed (Sample.world 0 (Resolved Sample.image))
      "alice" Sample.payload
      (atRest (mkDB [Wallet.mk "alice" 100 0 1700000000000] [] [] [] [] []))
    = (Throw e, st) /\
    assets (committed st) = [].
Proof.
  exact (@uncastable_userId_never_mints Sample.indexed
           (Sample.world 0 (Resolved Sample.image)) "alice" Sample.payload
           (mkDB [Wallet.mk "alice" 100 0 1700000000000] [] [] [] [] [])
           eq_refl eq_refl).
Defined.

(** The cast at work: the locked funds of a user whose id is no ObjectId
    are given back, and the error is the cast's. *)
Example uncastable_userId_run :
  @executeMintFlow Sample.indexed (Sample.world 0 (Resolved Sample.image))
    "alice" Sample.payload
    (atRest (mkDB [Wallet.mk "alice" 100 0 1700000000000] [] [] [] [] []))
  = (Throw (CastError "ObjectId" "createdByUserId"),
     atRest (mkDB [Wallet.mk "alice" 100 0 1700000000000] [] [] [] [] [])).
Proof. reflexivity. Qed.
